(** * Loan engine: lifecycle state machine and investment ledger

    A shallow embedding of the domain entity [internal/domain/entity/loan.go]
    and of the approval path of [internal/delivery/http/loan_handler.go],
    with the properties of the lifecycle and of the admission rule.

    Conventions of the embedding:
    - [float64] is Rocq's primitive binary64 float ([PrimFloat.float]); Go's
      [x <= y], [x > y], [x == y], [x + y] and [x - y] are the IEEE 754
      operations [leb], [ltb] (arguments swapped), [eqb], [add] and [sub].
    - a Go [string] is a sequence of bytes, here [String.string]; [len] is
      [String.length].
    - an [error] is the message it was built from; [nil] is [None].
    - a method with a pointer receiver that writes its receiver returns the
      updated record; a method that only reads it returns its result alone.
    - [time.Now()] is an explicit argument [now]. *)

From Stdlib Require Import ZArith Floats String Ascii List Bool Lia.
From Stdlib Require Import DecimalString.
Import ListNotations.

Local Open Scope string_scope.

(** ** The parts of the Go language and runtime the entity relies on *)

Module Go.

Definition float64 := float.

(** [x > y] on float64: IEEE 754 "greater than", false when either side is
    a NaN. *)
Definition gtb (x y : float64) : bool := PrimFloat.ltb y x.

(** An [error] created by [errors.New] is identified with its message. *)
Definition error := string.
Definition errors_New (msg : string) : error := msg.

(** [time.Time], an instant; the zero value of the type is instant 0. *)
Definition Time := Z.
Definition zeroTime : Time := 0%Z.

(** The integer part of a float, rounding toward zero; [None] for the
    infinities and NaN. *)
Definition truncate (x : spec_float) : option Z :=
  match x with
  | S754_zero _ => Some 0%Z
  | S754_finite s m e =>
      let magnitude :=
        match e with
        | Zneg p => Z.shiftr (Zpos m) (Zpos p)
        | _ => Z.shiftl (Zpos m) e
        end in
      Some (if s then Z.opp magnitude else magnitude)
  | S754_infinity _ | S754_nan => None
  end.

Definition minInt32 : Z := (- 2147483648)%Z.
Definition maxInt32 : Z := 2147483647%Z.

(** The conversion [rune(x)] (rune = int32) of a float64: the fraction is
    discarded.  When the truncated value does not fit an int32 the language
    leaves the result to the implementation; the amd64 instruction
    (CVTTSD2SL) answers the "integer indefinite" value [-2^31]. *)
Definition int32_of_float64 (x : float64) : Z :=
  match truncate (Prim2SF x) with
  | Some z => if ((minInt32 <=? z) && (z <=? maxInt32))%Z then z else minInt32
  | None => minInt32
  end.

Definition byte (z : Z) : ascii := ascii_of_N (Z.to_N z).

Definition surrogateMin : Z := 0xD800%Z.
Definition surrogateMax : Z := 0xDFFF%Z.
Definition MaxRune : Z := 0x10FFFF%Z.

(** U+FFFD, the replacement character, in UTF-8. *)
Definition RuneError : string :=
  String (byte 0xEF) (String (byte 0xBF) (String (byte 0xBD) EmptyString)).

(** The conversion [string(r)] of a rune: the UTF-8 encoding of the code
    point [r], and U+FFFD when [r] is not a valid code point. *)
Definition string_of_rune (r : Z) : string :=
  if ((r <? 0) || (MaxRune <? r)
      || ((surrogateMin <=? r) && (r <=? surrogateMax)))%Z
  then RuneError
  else if (r <? 0x80)%Z then
    String (byte r) EmptyString
  else if (r <? 0x800)%Z then
    String (byte (Z.lor 0xC0 (Z.shiftr r 6)))
      (String (byte (Z.lor 0x80 (Z.land r 0x3F))) EmptyString)
  else if (r <? 0x10000)%Z then
    String (byte (Z.lor 0xE0 (Z.shiftr r 12)))
      (String (byte (Z.lor 0x80 (Z.land (Z.shiftr r 6) 0x3F)))
         (String (byte (Z.lor 0x80 (Z.land r 0x3F))) EmptyString))
  else
    String (byte (Z.lor 0xF0 (Z.shiftr r 18)))
      (String (byte (Z.lor 0x80 (Z.land (Z.shiftr r 12) 0x3F)))
         (String (byte (Z.lor 0x80 (Z.land (Z.shiftr r 6) 0x3F)))
            (String (byte (Z.lor 0x80 (Z.land r 0x3F))) EmptyString))).

End Go.

(** ** package entity *)

Module entity.
Import Go.

(** [type LoanState string]: any string is a value of the type; the four
    constants are the states of the lifecycle. *)
Definition LoanState := string.

Definition StateProposed : LoanState := "proposed".
Definition StateApproved : LoanState := "approved".
Definition StateInvested : LoanState := "invested".
Definition StateDisbursed : LoanState := "disbursed".

(** [type Loan struct]; a pointer field that may be nil is an [option]. *)
Record Loan := {
  ID : Z;
  BorrowerIDNumber : string;
  PrincipalAmount : float64;
  Rate : float64;
  ROI : float64;
  State : LoanState;
  AgreementLetterLink : string;
  CreatedAt : Time;
  UpdatedAt : Time;
  ApprovalProofPicture : option string;
  ApprovalEmployeeID : option string;
  ApprovalDate : option Time;
  SignedAgreementDoc : option string;
  DisbursementEmployeeID : option string;
  DisbursementDate : option Time
}.

Record Investment := {
  InvestmentID : Z;
  LoanID : Z;
  InvestorEmail : string;
  Amount : float64;
  InvestmentCreatedAt : Time
}.

Definition ErrNotProposed : error :=
  errors_New "loan can only be approved from proposed state".
Definition ErrNotInvestable : error :=
  errors_New
    "loan must be approved or already partially invested to receive investments".
Definition ErrNonPositiveAmount : error :=
  errors_New "investment amount must be greater than zero".
Definition ErrNotInvested : error :=
  errors_New "loan can only be disbursed from invested state".

(** The fixed part of the message of the overfunding error; the text made
    from the remaining amount follows it. *)
Definition overfundingPrefix : string :=
  "investment amount exceeds remaining loan amount: " ++ "remaining ".

Definition CanBeApproved (l : Loan) : option error :=
  if negb (State l =? StateProposed) then Some ErrNotProposed else None.

Definition Approve (l : Loan) (proofPicture employeeID : string)
    (approvalDate : Time) (now : Time) : Loan * option error :=
  match CanBeApproved l with
  | Some err => (l, Some err)
  | None =>
      ({| ID := ID l;
          BorrowerIDNumber := BorrowerIDNumber l;
          PrincipalAmount := PrincipalAmount l;
          Rate := Rate l;
          ROI := ROI l;
          State := StateApproved;
          AgreementLetterLink := AgreementLetterLink l;
          CreatedAt := CreatedAt l;
          UpdatedAt := now;
          ApprovalProofPicture := Some proofPicture;
          ApprovalEmployeeID := Some employeeID;
          ApprovalDate := Some approvalDate;
          SignedAgreementDoc := SignedAgreementDoc l;
          DisbursementEmployeeID := DisbursementEmployeeID l;
          DisbursementDate := DisbursementDate l |}, None)
  end.

Definition CanReceiveInvestment (l : Loan) : option error :=
  if negb (State l =? StateApproved) && negb (State l =? StateInvested)
  then Some ErrNotInvestable
  else None.

Definition ValidateInvestmentAmount (l : Loan)
    (amount currentTotalInvestment : float64) : option error :=
  if PrimFloat.leb amount 0 then Some ErrNonPositiveAmount
  else if gtb (PrimFloat.add currentTotalInvestment amount) (PrincipalAmount l)
  then
    let remaining := PrimFloat.sub (PrincipalAmount l) currentTotalInvestment in
    Some (errors_New
            (overfundingPrefix ++ string_of_rune (int32_of_float64 remaining)))
  else None.

Definition MarkAsInvested (l : Loan) (now : Time) : Loan :=
  if State l =? StateApproved then
    {| ID := ID l;
       BorrowerIDNumber := BorrowerIDNumber l;
       PrincipalAmount := PrincipalAmount l;
       Rate := Rate l;
       ROI := ROI l;
       State := StateInvested;
       AgreementLetterLink := AgreementLetterLink l;
       CreatedAt := CreatedAt l;
       UpdatedAt := now;
       ApprovalProofPicture := ApprovalProofPicture l;
       ApprovalEmployeeID := ApprovalEmployeeID l;
       ApprovalDate := ApprovalDate l;
       SignedAgreementDoc := SignedAgreementDoc l;
       DisbursementEmployeeID := DisbursementEmployeeID l;
       DisbursementDate := DisbursementDate l |}
  else l.

Definition CanBeDisbursed (l : Loan) : option error :=
  if negb (State l =? StateInvested) then Some ErrNotInvested else None.

Definition Disburse (l : Loan) (signedAgreementDoc employeeID : string)
    (disbursementDate : Time) (now : Time) : Loan * option error :=
  match CanBeDisbursed l with
  | Some err => (l, Some err)
  | None =>
      ({| ID := ID l;
          BorrowerIDNumber := BorrowerIDNumber l;
          PrincipalAmount := PrincipalAmount l;
          Rate := Rate l;
          ROI := ROI l;
          State := StateDisbursed;
          AgreementLetterLink := AgreementLetterLink l;
          CreatedAt := CreatedAt l;
          UpdatedAt := now;
          ApprovalProofPicture := ApprovalProofPicture l;
          ApprovalEmployeeID := ApprovalEmployeeID l;
          ApprovalDate := ApprovalDate l;
          SignedAgreementDoc := Some signedAgreementDoc;
          DisbursementEmployeeID := Some employeeID;
          DisbursementDate := Some disbursementDate |}, None)
  end.

Definition IsFullyInvested (l : Loan) (totalInvestment : float64) : bool :=
  PrimFloat.eqb totalInvestment (PrincipalAmount l).

Definition GetRemainingAmount (l : Loan) (totalInvestment : float64) : float64 :=
  let remaining := PrimFloat.sub (PrincipalAmount l) totalInvestment in
  if PrimFloat.ltb remaining 0 then 0%float else remaining.

(** [type ApproveLoanParams struct] of loan_params.go. *)
Record ApproveLoanParams := {
  ProofPicture : string;
  EmployeeID : string;
  ApprovalDateParam : Time
}.

(** [type CreateLoanParams struct], [type InvestLoanParams struct] and
    [type DisburseLoanParams struct] of loan_params.go. *)
Record CreateLoanParams := {
  CreateBorrowerIDNumber : string;
  CreatePrincipalAmount : float64;
  CreateRate : float64;
  CreateROI : float64;
  CreateAgreementLetterLink : string
}.

Record InvestLoanParams := {
  InvestParamEmail : string;
  InvestParamAmount : float64
}.

Record DisburseLoanParams := {
  DisburseSignedAgreementDoc : string;
  DisburseEmployeeID : string;
  DisburseDate : Time
}.

End entity.

(** ** package usecase *)

Module usecase.
Import Go entity.

(** Modelled from the spec: [internal/usecase/loan_usecase.go] is not part
    of the sources.  Section 4.1 describes the step the orchestration layer
    runs after each investment, [promoteIfFullyFunded(loan, totalInvested)]:
    the loan becomes invested when it is approved and the total equals the
    principal exactly, and nothing happens otherwise.  The two entity
    methods it is made of, [IsFullyInvested] and [MarkAsInvested], are the
    ones embedded from the code above. *)
Definition promoteIfFullyFunded (l : Loan) (totalInvested : float64)
    (now : Time) : Loan :=
  if IsFullyInvested l totalInvested then MarkAsInvested l now else l.

End usecase.

(** ** package repository: the filter of a listing and the statement it
    becomes *)

Module repository.
Import Go entity.

(** [type LoanFilter struct] of the domain: every field is optional. *)
Record LoanFilter := {
  FilterState : option LoanState;
  FilterBorrowerID : option string;
  FilterLimit : option Z;
  FilterOffset : option Z
}.

(** A value bound to a placeholder of a statement ([interface{}] in the
    source): here a state, a string or an int. *)
Inductive Arg :=
| ArgState (s : LoanState)
| ArgString (s : string)
| ArgInt (n : Z).

Definition LF : string := String (ascii_of_nat 10) EmptyString.
Definition TAB : string := String (ascii_of_nat 9) EmptyString.

(** The raw string literal [List] starts its query from, line breaks and
    indentation included. *)
Definition selectLoans : string :=
  "SELECT id, borrower_id_number, principal_amount, rate, roi, state, " ++ LF
  ++ TAB ++ TAB ++ TAB
  ++ "  agreement_letter_link, approval_proof_picture, approval_employee_id, approval_date,"
  ++ LF ++ TAB ++ TAB ++ TAB
  ++ "  signed_agreement_doc, disbursement_employee_id, disbursement_date,"
  ++ LF ++ TAB ++ TAB ++ TAB
  ++ "  created_at, updated_at FROM loans".

(** The first half of [loanRepository.List]: the statement text and the
    arguments it hands to [QueryContext]. *)
Definition List_query (filter : LoanFilter) : string * list Arg :=
  let query := selectLoans in
  let conditions : list string := [] in
  let args : list Arg := [] in
  let '(conditions, args) :=
    match FilterState filter with
    | Some st => ((conditions ++ ["state = ?"])%list, (args ++ [ArgState st])%list)
    | None => (conditions, args)
    end in
  let '(conditions, args) :=
    match FilterBorrowerID filter with
    | Some b =>
        ((conditions ++ ["borrower_id_number = ?"])%list,
         (args ++ [ArgString b])%list)
    | None => (conditions, args)
    end in
  let query :=
    if (0 <? List.length conditions)%nat
    then query ++ " WHERE " ++ String.concat " AND " conditions
    else query in
  let query := query ++ " ORDER BY created_at DESC" in
  let '(query, args) :=
    match FilterLimit filter with
    | Some n => (query ++ " LIMIT ?", (args ++ [ArgInt n])%list)
    | None => (query, args)
    end in
  let '(query, args) :=
    match FilterOffset filter with
    | Some n => (query ++ " OFFSET ?", (args ++ [ArgInt n])%list)
    | None => (query, args)
    end in
  (query, args).

End repository.

(** ** package http: the approval endpoint *)

Module http.
Import Go entity.

Definition StatusOK : Z := 200%Z.
Definition StatusBadRequest : Z := 400%Z.
Definition StatusNotFound : Z := 404%Z.
Definition StatusInternalServerError : Z := 500%Z.

(** [multipart.FileHeader], the two fields the handler reads. *)
Record FileHeader := { Filename : string; Size : Z }.

(** [type LoanResponse struct] of response_dto.go. *)
Record LoanResponse := {
  respID : Z;
  respBorrowerIDNumber : string;
  respPrincipalAmount : float64;
  respRate : float64;
  respROI : float64;
  respState : string;
  respAgreementLetterLink : string;
  respCreatedAt : Time;
  respUpdatedAt : Time;
  ApprovalProofPictureURL : option string;
  respApprovalEmployeeID : option string;
  respApprovalDate : option Time;
  SignedAgreementDocURL : option string;
  respDisbursementEmployeeID : option string;
  respDisbursementDate : option Time
}.

Definition BaseFileURL : string := "http://localhost:8080/files".

Definition fileURL (directory : string) (name : option string) : option string :=
  match name with
  | Some n => if negb (n =? "") then Some (BaseFileURL ++ directory ++ n) else None
  | None => None
  end.

Definition toLoanResponse (loan : Loan) : LoanResponse :=
  {| respID := ID loan;
     respBorrowerIDNumber := BorrowerIDNumber loan;
     respPrincipalAmount := PrincipalAmount loan;
     respRate := Rate loan;
     respROI := ROI loan;
     respState := State loan;
     respAgreementLetterLink := AgreementLetterLink loan;
     respCreatedAt := CreatedAt loan;
     respUpdatedAt := UpdatedAt loan;
     ApprovalProofPictureURL :=
       fileURL "/proof_pictures/" (ApprovalProofPicture loan);
     respApprovalEmployeeID := ApprovalEmployeeID loan;
     respApprovalDate := ApprovalDate loan;
     SignedAgreementDocURL :=
       fileURL "/signed_agreements/" (SignedAgreementDoc loan);
     respDisbursementEmployeeID := DisbursementEmployeeID loan;
     respDisbursementDate := DisbursementDate loan |}.

(** What [c.JSON(status, ...)] writes: an error object or a loan. *)
Inductive Body :=
| ErrorBody (msg : string)
| LoanBody (loan : LoanResponse).

Record Response := { status : Z; body : Body }.

(** What the approval handler reads from the request: the path parameter,
    the two form fields ([PostForm] answers the empty string for an absent
    field) and the uploaded file with its header, if there is one. *)
Record ApproveRequest := {
  param_id : string;
  form_employee_id : string;
  form_approval_date : string;
  form_proof_picture : option (string * FileHeader)
}.

Definition ErrEmployeeID : error :=
  errors_New "employee ID must be at least 3 characters".
Definition ErrDateFormat : error :=
  errors_New
    "date must be in YYYY-MM-DD HH:MM:SS format (e.g., 2023-12-25 10:30:00)".

Definition maxUploadSize : Z := (5 * 1024 * 1024)%Z.

Section Handler.

(** Everything outside the process (database, upload directory) is the
    [World]; the handler threads it through the calls that touch it. *)
Variable World : Type.

(** Library functions, by their Go names. *)
Variable strconv_ParseInt : string -> option Z.
Variable filepath_Ext : string -> string.
Variable strings_ToLower : string -> string.
Variable time_Parse : string -> string -> option Time.

(** [saveUploadedFile] writes the upload under a name made from the loan
    id and the clock; it answers the path or the error of the file
    system. *)
Variable saveUploadedFile :
  World -> string -> FileHeader -> Z -> string -> string ->
  World * (string + error).

(** The handler's [loanUsecase] field, an interface value: the only way
    the handler reaches the loans. *)
Variable loanUsecase_ApproveLoan :
  World -> Z -> ApproveLoanParams -> World * (Loan + error).

Definition validateUploadedFile (header : FileHeader)
    (allowedExts : list string) (fileType : string) : option error :=
  if (maxUploadSize <? Size header)%Z then
    Some (fileType ++ " file size must not exceed 5MB")
  else
    let ext := strings_ToLower (filepath_Ext (Filename header)) in
    if existsb (String.eqb ext) allowedExts then None
    else
      Some (fileType ++ " must be one of the following file types: "
              ++ String.concat ", " allowedExts).

Definition validateEmployeeIDAndDateFormat (employeeID dateField : string)
    : Time * option error :=
  if (String.length employeeID <? 3)%nat then (zeroTime, Some ErrEmployeeID)
  else
    match time_Parse "2006-01-02 15:04:05" dateField with
    | None => (zeroTime, Some ErrDateFormat)
    | Some parsedDate => (parsedDate, None)
    end.

Definition badRequest (msg : string) : Response :=
  {| status := StatusBadRequest; body := ErrorBody msg |}.

Definition ApproveLoan (w : World) (c : ApproveRequest) : World * Response :=
  match strconv_ParseInt (param_id c) with
  | None => (w, badRequest "Invalid loan ID")
  | Some loanID =>
    let employeeID := form_employee_id c in
    let approvalDate := form_approval_date c in
    match form_proof_picture c with
    | None => (w, badRequest "proof_picture file is required")
    | Some (file, header) =>
      let imageExts := [".jpg"; ".jpeg"; ".png"] in
      match validateUploadedFile header imageExts "proof picture" with
      | Some err => (w, badRequest err)
      | None =>
        match validateEmployeeIDAndDateFormat employeeID approvalDate with
        | (_, Some err) => (w, badRequest err)
        | (parsedApprovalDate, None) =>
          match saveUploadedFile w file header loanID "proof_pictures" "proof" with
          | (w1, inr _) =>
              (w1, {| status := StatusInternalServerError;
                      body := ErrorBody "Failed to save proof picture" |})
          | (w1, inl proofPicturePath) =>
            let params :=
              {| ProofPicture := proofPicturePath;
                 EmployeeID := employeeID;
                 ApprovalDateParam := parsedApprovalDate |} in
            match loanUsecase_ApproveLoan w1 loanID params with
            | (w2, inr err) =>
                if err =? "loan not found"
                then (w2, {| status := StatusNotFound; body := ErrorBody err |})
                else (w2, badRequest err)
            | (w2, inl loan) =>
                (w2, {| status := StatusOK;
                        body := LoanBody (toLoanResponse loan) |})
            end
          end
        end
      end
    end
  end.

End Handler.

(** *** The other endpoints *)

Definition StatusCreated : Z := 201%Z.

(** [type CreateLoanRequest struct] and [type InvestLoanRequest struct] of
    request_dto.go. *)
Record CreateLoanRequest := {
  reqBorrowerIDNumber : string;
  reqPrincipalAmount : float64;
  reqRate : float64;
  reqROI : float64;
  reqAgreementLetterLink : string
}.

Record InvestLoanRequest := {
  reqInvestorEmail : string;
  reqAmount : float64
}.

(** [type InvestmentResponse struct] and [type LoanSummaryResponse struct]
    of response_dto.go. *)
Record InvestmentResponse := {
  respInvestmentID : Z;
  respLoanID : Z;
  respInvestorEmail : string;
  respInvestmentAmount : float64;
  respInvestmentCreatedAt : Time
}.

Record LoanSummaryResponse := {
  respLoan : LoanResponse;
  respTotalInvested : float64;
  respRemainingAmount : float64;
  respInvestmentCount : Z;
  respInvestments : list InvestmentResponse
}.

(** [usecase.LoanSummary], by the fields [toLoanSummaryResponse] reads. *)
Record LoanSummary := {
  SummaryLoan : Loan;
  SummaryInvestments : list Investment;
  TotalInvested : float64;
  RemainingAmount : float64;
  InvestmentCount : Z
}.

Definition toInvestmentResponse (investment : Investment) : InvestmentResponse :=
  {| respInvestmentID := InvestmentID investment;
     respLoanID := LoanID investment;
     respInvestorEmail := InvestorEmail investment;
     respInvestmentAmount := Amount investment;
     respInvestmentCreatedAt := InvestmentCreatedAt investment |}.

Definition toLoanSummaryResponse (summary : LoanSummary) : LoanSummaryResponse :=
  let loanResponse := toLoanResponse (SummaryLoan summary) in
  let investmentResponses := map toInvestmentResponse (SummaryInvestments summary) in
  {| respLoan := loanResponse;
     respTotalInvested := TotalInvested summary;
     respRemainingAmount := RemainingAmount summary;
     respInvestmentCount := InvestmentCount summary;
     respInvestments := investmentResponses |}.

(** What the other handlers write with [c.JSON]. *)
Inductive Payload :=
| PError (msg : string)
| PLoan (loan : LoanResponse)
| PInvestment (investment : InvestmentResponse)
| PSummary (summary : LoanSummaryResponse)
| PLoans (loans : list LoanResponse) (count : nat).

Record Reply := { code : Z; payload : Payload }.

(** What the disbursement handler reads from the request. *)
Record DisburseRequest := {
  disburse_param_id : string;
  disburse_employee_id : string;
  disburse_date : string;
  disburse_signed_agreement_doc : option (string * FileHeader)
}.

(** The query parameters of a listing; [c.Query] answers the empty string
    for an absent one. *)
Record ListQuery := {
  query_state : string;
  query_borrower_id : string;
  query_limit : string;
  query_offset : string
}.

Section Endpoints.

Variable World : Type.

Variable strconv_ParseInt : string -> option Z.
Variable strconv_Atoi : string -> option Z.
Variable filepath_Ext : string -> string.
Variable strings_ToLower : string -> string.
Variable time_Parse : string -> string -> option Time.

Variable saveUploadedFile :
  World -> string -> FileHeader -> Z -> string -> string ->
  World * (string + error).

(** [c.ShouldBindJSON(&req)] on the body of the request: the decoded and
    validated request, or the error of the binding. *)
Variable bindCreateLoan : string -> CreateLoanRequest + error.
Variable bindInvestLoan : string -> InvestLoanRequest + error.

(** The methods of the [loanUsecase] field. *)
Variable loanUsecase_CreateLoan :
  World -> CreateLoanParams -> World * (Loan + error).
Variable loanUsecase_InvestInLoan :
  World -> Z -> InvestLoanParams -> World * (Investment + error).
Variable loanUsecase_DisburseLoan :
  World -> Z -> DisburseLoanParams -> World * (Loan + error).
Variable loanUsecase_GetLoan : World -> Z -> World * (LoanSummary + error).
Variable loanUsecase_ListLoans :
  World -> repository.LoanFilter -> World * (list Loan + error).

Definition reply (status : Z) (msg : string) : Reply :=
  {| code := status; payload := PError msg |}.

Definition CreateLoan (w : World) (body : string) : World * Reply :=
  match bindCreateLoan body with
  | inr err => (w, reply StatusBadRequest err)
  | inl req =>
    if negb (String.prefix "http" (reqAgreementLetterLink req)) then
      (w, reply StatusBadRequest "agreement letter link must be a valid URL")
    else
      let params :=
        {| CreateBorrowerIDNumber := reqBorrowerIDNumber req;
           CreatePrincipalAmount := reqPrincipalAmount req;
           CreateRate := reqRate req;
           CreateROI := reqROI req;
           CreateAgreementLetterLink := reqAgreementLetterLink req |} in
      match loanUsecase_CreateLoan w params with
      | (w1, inr err) => (w1, reply StatusBadRequest err)
      | (w1, inl loan) =>
          (w1, {| code := StatusCreated; payload := PLoan (toLoanResponse loan) |})
      end
  end.

Definition InvestInLoan (w : World) (loanIDStr body : string) : World * Reply :=
  match strconv_ParseInt loanIDStr with
  | None => (w, reply StatusBadRequest "Invalid loan ID")
  | Some loanID =>
    match bindInvestLoan body with
    | inr err => (w, reply StatusBadRequest err)
    | inl req =>
      let params :=
        {| InvestParamEmail := reqInvestorEmail req;
           InvestParamAmount := reqAmount req |} in
      match loanUsecase_InvestInLoan w loanID params with
      | (w1, inr err) =>
          if err =? "loan not found"
          then (w1, reply StatusNotFound err)
          else (w1, reply StatusBadRequest err)
      | (w1, inl investment) =>
          (w1, {| code := StatusCreated;
                  payload := PInvestment (toInvestmentResponse investment) |})
      end
    end
  end.

Definition DisburseLoan (w : World) (c : DisburseRequest) : World * Reply :=
  match strconv_ParseInt (disburse_param_id c) with
  | None => (w, reply StatusBadRequest "Invalid loan ID")
  | Some loanID =>
    let employeeID := disburse_employee_id c in
    let disbursementDate := disburse_date c in
    match disburse_signed_agreement_doc c with
    | None => (w, reply StatusBadRequest "signed_agreement_doc file is required")
    | Some (file, header) =>
      let docExts := [".pdf"; ".jpg"; ".jpeg"; ".png"] in
      match validateUploadedFile filepath_Ext strings_ToLower
              header docExts "signed agreement" with
      | Some err => (w, reply StatusBadRequest err)
      | None =>
        match validateEmployeeIDAndDateFormat time_Parse
                employeeID disbursementDate with
        | (_, Some err) => (w, reply StatusBadRequest err)
        | (parseDisbursementDate, None) =>
          match saveUploadedFile w file header loanID
                  "signed_agreements" "agreement" with
          | (w1, inr _) =>
              (w1, reply StatusInternalServerError
                     "Failed to save signed agreement document")
          | (w1, inl signedAgreementPath) =>
            let params :=
              {| DisburseSignedAgreementDoc := signedAgreementPath;
                 DisburseEmployeeID := employeeID;
                 DisburseDate := parseDisbursementDate |} in
            match loanUsecase_DisburseLoan w1 loanID params with
            | (w2, inr err) =>
                if err =? "loan not found"
                then (w2, reply StatusNotFound err)
                else (w2, reply StatusBadRequest err)
            | (w2, inl loan) =>
                (w2, {| code := StatusOK; payload := PLoan (toLoanResponse loan) |})
            end
          end
        end
      end
    end
  end.

Definition GetLoan (w : World) (loanIDStr : string) : World * Reply :=
  match strconv_ParseInt loanIDStr with
  | None => (w, reply StatusBadRequest "Invalid loan ID")
  | Some loanID =>
    match loanUsecase_GetLoan w loanID with
    | (w1, inr err) =>
        if err =? "loan not found"
        then (w1, reply StatusNotFound err)
        else (w1, reply StatusInternalServerError err)
    | (w1, inl summary) =>
        (w1, {| code := StatusOK;
                payload := PSummary (toLoanSummaryResponse summary) |})
    end
  end.

(** The filter [ListLoans] builds from the query parameters (the first part
    of its body): a parameter that is absent or does not parse is left
    out. *)
Definition listFilter (q : ListQuery) : repository.LoanFilter :=
  {| repository.FilterState :=
       if negb (query_state q =? "") then Some (query_state q) else None;
     repository.FilterBorrowerID :=
       if negb (query_borrower_id q =? "") then Some (query_borrower_id q) else None;
     repository.FilterLimit :=
       if negb (query_limit q =? "") then
         match strconv_Atoi (query_limit q) with
         | Some limit => if (0 <? limit)%Z then Some limit else None
         | None => None
         end
       else None;
     repository.FilterOffset :=
       if negb (query_offset q =? "") then
         match strconv_Atoi (query_offset q) with
         | Some offset => if (0 <=? offset)%Z then Some offset else None
         | None => None
         end
       else None |}.

Definition ListLoans (w : World) (q : ListQuery) : World * Reply :=
  let filter := listFilter q in
  match loanUsecase_ListLoans w filter with
  | (w1, inr err) => (w1, reply StatusInternalServerError err)
  | (w1, inl loans) =>
      let loanResponses := map toLoanResponse loans in
      (w1, {| code := StatusOK;
              payload := PLoans loanResponses (List.length loanResponses) |})
  end.

End Endpoints.

End http.

(** ** package email: the SendGrid notification service *)

Module email.
Import Go.

(** [service.SendLoanNotificationRequest]. *)
Record SendLoanNotificationRequest := {
  NotifyLoanID : Z;
  InvestorEmails : list string;
  NotifyBorrowerIDNumber : string;
  NotifyPrincipalAmount : float64;
  NotifyAgreementLetterLink : string
}.

Record SendGridConfig := { APIKey : string; FromEmail : string; FromName : string }.

(** [mail.Email] and the single-recipient message of the SendGrid helper. *)
Record Email := { Name : string; Address : string }.

Record Message := {
  From : Email;
  Subject : string;
  To : Email;
  PlainTextContent : string;
  HTMLContent : string
}.

(** What [client.Send] answers: an error, or a response with its status. *)
Inductive SendResult :=
| SendError (err : error)
| SendResponse (StatusCode : Z) (Body : string).

(** [%d] of [fmt]. *)
Definition fmt_d (n : Z) : string := NilZero.string_of_int (Z.to_int n).

Section SendGrid.

Variable World : Type.

(** The SendGrid client of the service. *)
Variable client_Send : World -> Message -> World * SendResult.

(** The two bodies of the message, [fmt.Sprintf] of the HTML and the plain
    text template over the loan id, the borrower, the principal and the
    agreement link. *)
Variable htmlContent : SendLoanNotificationRequest -> string.
Variable plainTextContent : SendLoanNotificationRequest -> string.

(** The loop over [request.InvestorEmails]; the log lines are left out. *)
Fixpoint sendToAll (from : Email) (subject plain html : string)
    (w : World) (emails : list string) : World * option error :=
  match emails with
  | [] => (w, None)
  | email :: rest =>
      let to := {| Name := ""; Address := email |} in
      let message :=
        {| From := from; Subject := subject; To := to;
           PlainTextContent := plain; HTMLContent := html |} in
      match client_Send w message with
      | (w1, SendError err) =>
          (w1, Some ("failed to send email to " ++ email ++ ": " ++ err))
      | (w1, SendResponse status _) =>
          if (400 <=? status)%Z then
            (w1, Some ("sendgrid error for " ++ email ++ ": status " ++ fmt_d status))
          else sendToAll from subject plain html w1 rest
      end
  end.

Definition SendLoanFullyInvestedNotification (config : SendGridConfig)
    (w : World) (request : SendLoanNotificationRequest) : World * option error :=
  let from := {| Name := FromName config; Address := FromEmail config |} in
  let subject :=
    "Loan #" ++ fmt_d (NotifyLoanID request)
    ++ " is Fully Invested - Agreement Letter Available" in
  sendToAll from subject (plainTextContent request) (htmlContent request)
    w (InvestorEmails request).

End SendGrid.

End email.

(** ** The vocabulary of the properties *)

Import Go entity.

(** The place of a state in the lifecycle
    proposed < approved < invested < disbursed; a string that is none of the
    four has no place. *)
Definition stateRank (s : LoanState) : option nat :=
  if s =? StateProposed then Some 0%nat
  else if s =? StateApproved then Some 1%nat
  else if s =? StateInvested then Some 2%nat
  else if s =? StateDisbursed then Some 3%nat
  else None.

(** [s'] is [s] or a later state of the lifecycle. *)
Definition state_leb (s s' : LoanState) : bool :=
  (s =? s')
  || match stateRank s, stateRank s' with
     | Some m, Some n => (m <=? n)%nat
     | _, _ => false
     end.

(** The three operations of the entity that write the state. *)
Inductive Operation :=
| OpApprove (proofPicture employeeID : string) (approvalDate : Time)
| OpMarkAsInvested
| OpDisburse (signedAgreementDoc employeeID : string) (disbursementDate : Time).

Definition perform (op : Operation) (l : Loan) (now : Time) : Loan :=
  match op with
  | OpApprove proofPicture employeeID approvalDate =>
      fst (Approve l proofPicture employeeID approvalDate now)
  | OpMarkAsInvested => MarkAsInvested l now
  | OpDisburse signedAgreementDoc employeeID disbursementDate =>
      fst (Disburse l signedAgreementDoc employeeID disbursementDate now)
  end.

(** A history of the loan: operations applied one after the other, each
    with the reading of the clock at its time. *)
Fixpoint performAll (history : list (Operation * Time)) (l : Loan) : Loan :=
  match history with
  | [] => l
  | (op, now) :: rest => performAll rest (perform op l now)
  end.

(** The only change of state an operation is allowed to make. *)
Definition transitionOf (op : Operation) : LoanState * LoanState :=
  match op with
  | OpApprove _ _ _ => (StateProposed, StateApproved)
  | OpMarkAsInvested => (StateApproved, StateInvested)
  | OpDisburse _ _ _ => (StateInvested, StateDisbursed)
  end.

(** The loan moved into state [s]: it was not there before and is there
    after. *)
Definition movedTo (s : LoanState) (before after : Loan) : Prop :=
  State before <> s /\ State after = s.

(** The ledger of one loan: the amounts are submitted in order, each checked
    by [ValidateInvestmentAmount] against the float64 sum of the amounts
    admitted before it.  [admitAll l total amounts] is the final total when
    every amount is admitted, and [None] as soon as one is refused. *)
Fixpoint admitAll (l : Loan) (total : float64) (amounts : list float64)
    : option float64 :=
  match amounts with
  | [] => Some total
  | amount :: rest =>
      match ValidateInvestmentAmount l amount total with
      | None => admitAll l (PrimFloat.add total amount) rest
      | Some _ => None
      end
  end.

(** The approval usecase behind a guard: a call with a staff identifier of
    fewer than 3 bytes is answered by the guard, which leaves the world as it
    is, and never reaches the usecase. *)
Definition refusingShortEmployeeID {World : Type}
    (approve : World -> Z -> ApproveLoanParams -> World * (Loan + error))
    (w : World) (loanID : Z) (params : ApproveLoanParams)
    : World * (Loan + error) :=
  if (String.length (EmployeeID params) <? 3)%nat
  then (w, inr http.ErrEmployeeID)
  else approve w loanID params.

(** The error is an overfunding rejection: its message is the fixed text
    followed by the text made from the remaining amount. *)
Definition isOverfunding (err : error) : bool :=
  String.prefix overfundingPrefix err.

(** *** Classes of binary64 values, on their [spec_float] view *)

Definition sf_is_nan (x : spec_float) : bool :=
  match x with S754_nan => true | _ => false end.

(** Zero of either sign, a positive finite number or +infinity. *)
Definition sf_nonneg (x : spec_float) : bool :=
  match x with
  | S754_zero _ => true
  | S754_infinity s | S754_finite s _ _ => negb s
  | S754_nan => false
  end.

Definition sf_finite (x : spec_float) : bool :=
  match x with
  | S754_zero _ | S754_finite _ _ _ => true
  | S754_infinity _ | S754_nan => false
  end.

(** The result of rounding a non-negative integer significand is a zero,
    a finite number or an infinity, with the sign it was given. *)
Definition signed_number (sx : bool) (x : spec_float) : Prop :=
  match x with
  | S754_zero s | S754_infinity s | S754_finite s _ _ => s = sx
  | S754_nan => False
  end.

(** The ledger when refused amounts are simply not recorded: the total after
    every amount of the sequence has been submitted in turn. *)
Fixpoint submitAll (l : Loan) (total : float64) (amounts : list float64)
    : float64 :=
  match amounts with
  | [] => total
  | amount :: rest =>
      match ValidateInvestmentAmount l amount total with
      | None => submitAll l (PrimFloat.add total amount) rest
      | Some _ => submitAll l total rest
      end
  end.

(** *** Vocabulary of the further properties *)

Definition isSome {A : Type} (o : option A) : bool :=
  match o with Some _ => true | None => false end.

Definition approvalEvidence (l : Loan)
    : option string * option string * option Time :=
  (ApprovalProofPicture l, ApprovalEmployeeID l, ApprovalDate l).

Definition disbursementEvidence (l : Loan)
    : option string * option string * option Time :=
  (SignedAgreementDoc l, DisbursementEmployeeID l, DisbursementDate l).

Definition evidencePresent (e : option string * option string * option Time)
    : bool :=
  let '(doc, employee, date) := e in isSome doc && isSome employee && isSome date.

Definition evidenceAbsent (e : option string * option string * option Time)
    : bool :=
  let '(doc, employee, date) := e in
  negb (isSome doc) && negb (isSome employee) && negb (isSome date).

(** The evidence a loan carries is the evidence of its state: none when
    proposed, the approval when approved or invested, both when disbursed;
    and the state is one of the four. *)
Definition evidenceMatchesState (l : Loan) : bool :=
  if State l =? StateProposed then
    evidenceAbsent (approvalEvidence l) && evidenceAbsent (disbursementEvidence l)
  else if (State l =? StateApproved) || (State l =? StateInvested) then
    evidencePresent (approvalEvidence l) && evidenceAbsent (disbursementEvidence l)
  else if State l =? StateDisbursed then
    evidencePresent (approvalEvidence l) && evidencePresent (disbursementEvidence l)
  else false.

(** The fields no operation of the entity assigns. *)
Definition creationFields (l : Loan)
    : Z * string * float64 * float64 * float64 * string * Time :=
  (ID l, BorrowerIDNumber l, PrincipalAmount l, Rate l, ROI l,
   AgreementLetterLink l, CreatedAt l).

(** How often the byte [c] occurs in [s]. *)
Fixpoint occurrences (c : ascii) (s : string) : nat :=
  match s with
  | EmptyString => 0%nat
  | String a rest =>
      ((if Ascii.eqb a c then 1 else 0) + occurrences c rest)%nat
  end.

(** Two filters set the same fields, whatever the values. *)
Definition sameFields (f g : repository.LoanFilter) : Prop :=
  isSome (repository.FilterState f) = isSome (repository.FilterState g)
  /\ isSome (repository.FilterBorrowerID f) = isSome (repository.FilterBorrowerID g)
  /\ isSome (repository.FilterLimit f) = isSome (repository.FilterLimit g)
  /\ isSome (repository.FilterOffset f) = isSome (repository.FilterOffset g).

(** The values a filter sets, as arguments, in the order state, borrower,
    limit, offset. *)
Definition boundValues (f : repository.LoanFilter) : list repository.Arg :=
  (match repository.FilterState f with
   | Some st => [repository.ArgState st] | None => [] end
   ++ match repository.FilterBorrowerID f with
      | Some b => [repository.ArgString b] | None => [] end
   ++ match repository.FilterLimit f with
      | Some n => [repository.ArgInt n] | None => [] end
   ++ match repository.FilterOffset f with
      | Some n => [repository.ArgInt n] | None => [] end)%list.

(** The error the service makes of a message the client did not accept. *)
Definition sendFailure (m : email.Message) (r : email.SendResult) : error :=
  match r with
  | email.SendError err =>
      "failed to send email to " ++ email.Address (email.To m) ++ ": " ++ err
  | email.SendResponse status _ =>
      "sendgrid error for " ++ email.Address (email.To m) ++ ": status "
      ++ email.fmt_d status
  end.

(** A mail client as a world: the world is the list of the messages handed
    to the client so far, and what the client answers to a message may
    depend on that list. *)
Definition recordingClient
    (outcome : list email.Message -> email.Message -> email.SendResult)
    (sent : list email.Message) (m : email.Message)
    : list email.Message * email.SendResult :=
  ((sent ++ [m])%list, outcome sent m).

(** The client accepted the message: no error and a status below 400. *)
Definition accepted (r : email.SendResult) : bool :=
  match r with
  | email.SendError _ => false
  | email.SendResponse status _ => (status <? 400)%Z
  end.

(** Stand-ins for the collaborators of the handlers, to run them on. *)
Definition standInParseInt (s : string) : option Z :=
  if s =? "1" then Some 1%Z else None.

Definition standInAtoi (s : string) : option Z :=
  if s =? "10" then Some 10%Z else if s =? "-3" then Some (-3)%Z else None.

Definition standInExt (name : string) : string :=
  if name =? "proof.PNG" then ".PNG" else ".exe".

Definition standInToLower (s : string) : string :=
  if s =? ".PNG" then ".png" else s.

Definition standInTimeParse (layout value : string) : option Time :=
  if value =? "2023-12-25 10:30:00" then Some 42%Z else None.

Definition standInSave (w : unit) (file : string) (header : http.FileHeader)
    (loanID : Z) (subdirectory filePrefix : string) : unit * (string + error) :=
  (w, inl "uploads/file").

Definition standInNotFound {A B : Type} (w : unit) (loanID : Z) (params : A)
    : unit * (B + error) :=
  (w, inr "loan not found").

(** A client that accepts the first message it is handed and answers 503 to
    every later one. *)
Definition standInOutcome (sent : list email.Message) (m : email.Message)
    : email.SendResult :=
  match sent with
  | [] => email.SendResponse 202%Z ""
  | _ => email.SendResponse 503%Z ""
  end.

(** A binding that accepts every body and reads it as the agreement link,
    and one that reads it as the email of the investor. *)
Definition standInBindCreate (body : string) : http.CreateLoanRequest + error :=
  inl {| http.reqBorrowerIDNumber := "ID123456789";
         http.reqPrincipalAmount := 1000000%float;
         http.reqRate := 12.5%float;
         http.reqROI := 15%float;
         http.reqAgreementLetterLink := body |}.

Definition standInBindInvest (body : string) : http.InvestLoanRequest + error :=
  inl {| http.reqInvestorEmail := body; http.reqAmount := 600000%float |}.

Definition standInCreate (w : unit) (params : CreateLoanParams)
    : unit * (Loan + error) :=
  (w, inr "creation refused").

Definition standInGetLoan (w : unit) (loanID : Z)
    : unit * (http.LoanSummary + error) :=
  (w, inr "database is locked").

Definition standInListLoans (w : unit) (filter : repository.LoanFilter)
    : unit * (list Loan + error) :=
  (w, inl []).

(** *** Exact amounts and characters *)

(** The exact value of a finite float64, counted in units of 2^-1074 (every
    finite float64 is a whole number of them); [None] for the infinities and
    NaN. *)
Definition exactUnits (x : float64) : option Z :=
  match Prim2SF x with
  | S754_zero _ => Some 0%Z
  | S754_finite s m e =>
      let magnitude := Z.shiftl (Zpos m) (e + 1074) in
      Some (if s then Z.opp magnitude else magnitude)
  | S754_infinity _ | S754_nan => None
  end.

(** The exact sum of finite amounts, in the same units. *)
Fixpoint exactSum (amounts : list float64) : option Z :=
  match amounts with
  | [] => Some 0%Z
  | amount :: rest =>
      match exactUnits amount, exactSum rest with
      | Some a, Some r => Some (a + r)%Z
      | _, _ => None
      end
  end.

(** The amounts add up, exactly, to more than the principal. *)
Definition exactlyAbove (amounts : list float64) (principal : float64) : bool :=
  match exactSum amounts, exactUnits principal with
  | Some total, Some p => (p <? total)%Z
  | _, _ => false
  end.

(** One unit of currency in units of 2^-1074. *)
Definition oneUnit : Z := Z.shiftl 1 1074.

(** The number of characters (code points) of a string that is valid UTF-8,
    as [utf8.RuneCountInString] counts them: the bytes that are not
    continuation bytes (10xxxxxx). *)
Fixpoint runeCount (s : string) : nat :=
  match s with
  | EmptyString => 0%nat
  | String c rest =>
      let b := Z.of_N (N_of_ascii c) in
      ((if (Z.land b 0xC0 =? 0x80)%Z then 0 else 1) + runeCount rest)%nat
  end.

(** The two-character staff identifier e-acute, a: three bytes in UTF-8. *)
Definition twoCharacterID : string :=
  String (Go.byte 0xC3) (String (Go.byte 0xA9) "a").

(** A world that is one loan, with an approval usecase that applies
    [Loan.Approve] to it and keeps the result, and an upload that always
    succeeds. *)
Definition standInApprove (w : Loan) (loanID : Z) (params : ApproveLoanParams)
    : Loan * (Loan + error) :=
  match Approve w (ProofPicture params) (EmployeeID params)
          (ApprovalDateParam params) 300%Z with
  | (approved, None) => (approved, inl approved)
  | (_, Some err) => (w, inr err)
  end.

Definition standInSaveLoan (w : Loan) (file : string) (header : http.FileHeader)
    (loanID : Z) (subdirectory filePrefix : string) : Loan * (string + error) :=
  (w, inl "uploads/proof_pictures/loan_1_proof_1703500200.PNG").

(** A loan to run the operations on. *)
Definition sampleLoan (principal : float) (st : LoanState) : Loan :=
  {| ID := 1%Z; BorrowerIDNumber := "ID123456789"; PrincipalAmount := principal;
     Rate := 12.5%float; ROI := 15%float; State := st;
     AgreementLetterLink := "https://example.com/agreement.pdf";
     CreatedAt := 100%Z; UpdatedAt := 100%Z;
     ApprovalProofPicture := None; ApprovalEmployeeID := None;
     ApprovalDate := None; SignedAgreementDoc := None;
     DisbursementEmployeeID := None; DisbursementDate := None |}.

(** * Properties *)

(** ** Facts about binary64 arithmetic *)

Module Float64.

Lemma compare_cont_refl (m : positive) : Pos.compare_cont Eq m m = Eq.
Proof. exact (Pos.compare_refl m). Qed.

Lemma SFcompare_refl (x : spec_float) :
  SFcompare x x = if sf_is_nan x then None else Some Eq.
Proof.
  destruct x as [s|s| |s m e]; simpl; try reflexivity.
  - now destruct s.
  - rewrite Z.compare_refl, compare_cont_refl. now destruct s.
Qed.

Lemma SFcompare_swap (x y : spec_float) :
  SFcompare y x = option_map CompOpp (SFcompare x y).
Proof.
  destruct x as [sx|sx| |sx mx ex], y as [sy|sy| |sy my ey]; simpl;
    try reflexivity; try (now destruct sx); try (now destruct sy);
    try (now destruct sx, sy).
  f_equal. rewrite (Z.compare_antisym ex ey).
  change (Pos.compare_cont Eq my mx) with (Pos.compare my mx).
  change (Pos.compare_cont Eq mx my) with (Pos.compare mx my).
  rewrite (Pos.compare_antisym mx my).
  destruct sx, sy, (ex ?= ey)%Z, (mx ?= my)%positive; reflexivity.
Qed.

Lemma SFcompare_None (x y : spec_float) :
  SFcompare x y = None <-> sf_is_nan x = true \/ sf_is_nan y = true.
Proof.
  destruct x as [sx|sx| |sx mx ex], y as [sy|sy| |sy my ey]; simpl;
    split; intros H; try discriminate; try tauto;
    destruct H; discriminate.
Qed.

Lemma is_nan_spec (x : float) : is_nan x = sf_is_nan (Prim2SF x).
Proof.
  unfold is_nan. rewrite FloatAxioms.eqb_spec. unfold SFeqb.
  rewrite SFcompare_refl. now destruct (sf_is_nan (Prim2SF x)).
Qed.

Lemma ltb_true_numbers (x y : float) :
  PrimFloat.ltb x y = true -> is_nan x = false /\ is_nan y = false.
Proof.
  rewrite ltb_spec, !is_nan_spec. unfold SFltb.
  destruct (SFcompare (Prim2SF x) (Prim2SF y)) eqn:E; [|discriminate].
  intros _.
  destruct (sf_is_nan (Prim2SF x)) eqn:Ex, (sf_is_nan (Prim2SF y)) eqn:Ey;
    try (split; reflexivity);
    assert (SFcompare (Prim2SF x) (Prim2SF y) = None)
      by (apply SFcompare_None; auto); congruence.
Qed.

Lemma leb_true_numbers (x y : float) :
  PrimFloat.leb x y = true -> is_nan x = false /\ is_nan y = false.
Proof.
  rewrite leb_spec, !is_nan_spec. unfold SFleb.
  destruct (SFcompare (Prim2SF x) (Prim2SF y)) eqn:E; [|discriminate].
  intros _.
  destruct (sf_is_nan (Prim2SF x)) eqn:Ex, (sf_is_nan (Prim2SF y)) eqn:Ey;
    try (split; reflexivity);
    assert (SFcompare (Prim2SF x) (Prim2SF y) = None)
      by (apply SFcompare_None; auto); congruence.
Qed.

(** On numbers the order is total: [x <= y] or [y < x]. *)
Lemma leb_ltb_numbers (x y : float) :
  is_nan x = false -> is_nan y = false ->
  PrimFloat.leb x y = negb (PrimFloat.ltb y x).
Proof.
  rewrite leb_spec, ltb_spec, !is_nan_spec. unfold SFleb, SFltb.
  intros Hx Hy. rewrite (SFcompare_swap (Prim2SF x) (Prim2SF y)).
  destruct (SFcompare (Prim2SF x) (Prim2SF y)) as [[| |]|] eqn:E;
    try reflexivity.
  apply SFcompare_None in E. destruct E; congruence.
Qed.

Lemma ltb_leb (x y : float) :
  PrimFloat.ltb x y = true -> PrimFloat.leb x y = true.
Proof.
  rewrite leb_spec, ltb_spec. unfold SFleb, SFltb.
  now destruct (SFcompare (Prim2SF x) (Prim2SF y)) as [[| |]|].
Qed.

(** A total strictly below the principal is not equal to it. *)
Lemma ltb_not_eqb (x y : float) :
  PrimFloat.ltb x y = true -> PrimFloat.eqb x y = false.
Proof.
  rewrite FloatAxioms.eqb_spec, ltb_spec. unfold SFeqb, SFltb.
  now destruct (SFcompare (Prim2SF x) (Prim2SF y)) as [[| |]|].
Qed.

Lemma ltb_asym (x y : float) :
  PrimFloat.ltb x y = true -> PrimFloat.ltb y x = false.
Proof.
  rewrite !ltb_spec. unfold SFltb.
  rewrite (SFcompare_swap (Prim2SF x) (Prim2SF y)).
  now destruct (SFcompare (Prim2SF x) (Prim2SF y)) as [[| |]|].
Qed.

Lemma Prim2SF_zero : Prim2SF 0%float = S754_zero false.
Proof. reflexivity. Qed.

Lemma leb_zero_nonneg (x : float) :
  PrimFloat.leb 0 x = sf_nonneg (Prim2SF x).
Proof.
  rewrite leb_spec, Prim2SF_zero.
  destruct (Prim2SF x) as [s|s| |s m e]; try reflexivity; now destruct s.
Qed.

(** A NaN operand makes the sum a NaN. *)
Lemma add_number_operands (x y : float) :
  is_nan (x + y) = false -> is_nan x = false /\ is_nan y = false.
Proof.
  rewrite !is_nan_spec, add_spec. unfold SF64add.
  destruct (Prim2SF x) as [sx|sx| |sx mx ex], (Prim2SF y) as [sy|sy| |sy my ey];
    simpl; auto.
Qed.

(** *** Rounding never invents a NaN or a sign *)

Section Rounding.
Variables prec emax : Z.

Lemma iter_pos_invariant {A : Type} (P : A -> Prop) (f : A -> A) :
  (forall a, P a -> P (f a)) ->
  forall n a, P a -> P (iter_pos f n a).
Proof.
  intros Hf. induction n as [n IH|n IH|]; intros a Ha; simpl; auto.
Qed.

Lemma shr_1_nonneg (mrs : shr_record) :
  (0 <= shr_m mrs)%Z -> (0 <= shr_m (shr_1 mrs))%Z.
Proof.
  destruct mrs as [m r s0]; simpl.
  destruct m as [|p|p]; [ easy | | intros H; now exfalso ].
  destruct p; simpl; lia.
Qed.

Lemma shr_nonneg (mrs : shr_record) (e n : Z) :
  (0 <= shr_m mrs)%Z -> (0 <= shr_m (fst (shr mrs e n)))%Z.
Proof.
  intros H. unfold shr. destruct n as [|p|p]; simpl; auto.
  apply (iter_pos_invariant (fun r => (0 <= shr_m r)%Z)); auto.
  exact shr_1_nonneg.
Qed.

Lemma shr_fexp_nonneg (m e : Z) (l : location) :
  (0 <= m)%Z -> (0 <= shr_m (fst (shr_fexp prec emax m e l)))%Z.
Proof.
  intros H. unfold shr_fexp. apply shr_nonneg.
  destruct l as [|[| |]]; exact H.
Qed.

Lemma round_nearest_even_nonneg (m : Z) (l : location) :
  (0 <= m)%Z -> (0 <= round_nearest_even m l)%Z.
Proof.
  intros H. destruct l as [|[| |]]; simpl; try lia.
  destruct (Z.even m); lia.
Qed.

Lemma binary_round_aux_signed (sx : bool) (mx ex : Z) (lx : location) :
  (0 <= mx)%Z -> signed_number sx (binary_round_aux prec emax sx mx ex lx).
Proof.
  intros H. unfold binary_round_aux.
  pose proof (shr_fexp_nonneg mx ex lx H) as H1.
  destruct (shr_fexp prec emax mx ex lx) as [mrs' e']. simpl in H1.
  pose proof (shr_fexp_nonneg _ e' loc_Exact
                (round_nearest_even_nonneg _ (loc_of_shr_record mrs') H1)) as H2.
  destruct (shr_fexp prec emax _ e' loc_Exact) as [mrs'' e'']. simpl in H2.
  destruct (shr_m mrs'') as [|m|m]; simpl; [ reflexivity | | now apply H2 ].
  destruct (e'' <=? emax - prec)%Z; reflexivity.
Qed.

Lemma binary_round_signed (sx : bool) (mx : positive) (ex : Z) :
  signed_number sx (binary_round prec emax sx mx ex).
Proof.
  unfold binary_round.
  destruct (shl_align mx ex _) as [mz ez].
  apply binary_round_aux_signed. lia.
Qed.

Lemma binary_normalize_number (m e : Z) (szero : bool) :
  sf_is_nan (binary_normalize prec emax m e szero) = false.
Proof.
  unfold binary_normalize. destruct m as [|m|m]; [ reflexivity | | ].
  - pose proof (binary_round_signed false m e) as H.
    now destruct (binary_round prec emax false m e).
  - pose proof (binary_round_signed true m e) as H.
    now destruct (binary_round prec emax true m e).
Qed.

(** The sum of two finite numbers is a number (possibly an infinity). *)
Lemma SFadd_finite_number (x y : spec_float) :
  sf_finite x = true -> sf_finite y = true ->
  sf_is_nan (SFadd prec emax x y) = false.
Proof.
  destruct x as [sx|sx| |sx mx ex], y as [sy|sy| |sy my ey];
    simpl; try discriminate; intros _ _; try reflexivity.
  - now destruct sx, sy.
  - apply binary_normalize_number.
Qed.

(** The sum of two non-negative numbers is a non-negative number. *)
Lemma SFadd_nonneg (x y : spec_float) :
  sf_nonneg x = true -> sf_nonneg y = true ->
  sf_nonneg (SFadd prec emax x y) = true.
Proof.
  destruct x as [sx|sx| |sx mx ex], y as [sy|sy| |sy my ey];
    simpl; try discriminate; intros Hx Hy; try assumption;
    try reflexivity.
  - now destruct sx, sy.
  - destruct sx, sy; try discriminate; reflexivity.
  - destruct sx, sy; try discriminate. simpl.
    pose proof (binary_round_signed false
                  (fst (shl_align mx ex (Z.min ex ey))
                   + fst (shl_align my ey (Z.min ex ey)))
                  (Z.min ex ey)) as H.
    destruct (binary_round prec emax false _ _); simpl in H |- *;
      subst; auto.
Qed.

End Rounding.

Lemma add_finite_number (x y : float) :
  sf_finite (Prim2SF x) = true -> sf_finite (Prim2SF y) = true ->
  is_nan (x + y) = false.
Proof.
  intros Hx Hy. rewrite is_nan_spec, add_spec.
  now apply SFadd_finite_number.
Qed.

Lemma add_nonneg (x y : float) :
  PrimFloat.leb 0 x = true -> PrimFloat.leb 0 y = true ->
  PrimFloat.leb 0 (x + y) = true.
Proof.
  rewrite !leb_zero_nonneg, add_spec. apply SFadd_nonneg.
Qed.

End Float64.

(** ** The lifecycle state machine *)

Section Lifecycle.

Lemma state_leb_refl (s : LoanState) : state_leb s s = true.
Proof. unfold state_leb. now rewrite String.eqb_refl. Qed.

Lemma state_leb_trans (s1 s2 s3 : LoanState) :
  state_leb s1 s2 = true -> state_leb s2 s3 = true -> state_leb s1 s3 = true.
Proof.
  unfold state_leb. intros H12 H23.
  destruct (String.eqb_spec s1 s2) as [->|_]; [ exact H23 | ].
  destruct (String.eqb_spec s2 s3) as [<-|_]; simpl in *.
  - destruct (String.eqb s1 s2); [ reflexivity | exact H12 ].
  - destruct (stateRank s1) as [a|], (stateRank s2) as [b|]; try discriminate.
    destruct (stateRank s3) as [c|]; try discriminate.
    apply Nat.leb_le in H12, H23. apply orb_true_iff. right.
    apply Nat.leb_le. lia.
Qed.

Lemma Approve_state (l : Loan) (p e : string) (d now : Time) :
  State (fst (Approve l p e d now)) = State l
  \/ (State l = StateProposed
      /\ State (fst (Approve l p e d now)) = StateApproved).
Proof.
  unfold Approve, CanBeApproved.
  destruct (String.eqb_spec (State l) StateProposed); simpl; auto.
Qed.

Lemma MarkAsInvested_state (l : Loan) (now : Time) :
  State (MarkAsInvested l now) = State l
  \/ (State l = StateApproved /\ State (MarkAsInvested l now) = StateInvested).
Proof.
  unfold MarkAsInvested.
  destruct (String.eqb_spec (State l) StateApproved); simpl; auto.
Qed.

Lemma Disburse_state (l : Loan) (doc e : string) (d now : Time) :
  State (fst (Disburse l doc e d now)) = State l
  \/ (State l = StateInvested
      /\ State (fst (Disburse l doc e d now)) = StateDisbursed).
Proof.
  unfold Disburse, CanBeDisbursed.
  destruct (String.eqb_spec (State l) StateInvested); simpl; auto.
Qed.

Lemma perform_state (op : Operation) (l : Loan) (now : Time) :
  State (perform op l now) = State l
  \/ (State l, State (perform op l now)) = transitionOf op.
Proof.
  destruct op as [p e d| |doc e d]; simpl.
  - destruct (Approve_state l p e d now) as [H|[H1 H2]]; auto.
    right. now rewrite H1, H2.
  - destruct (MarkAsInvested_state l now) as [H|[H1 H2]]; auto.
    right. now rewrite H1, H2.
  - destruct (Disburse_state l doc e d now) as [H|[H1 H2]]; auto.
    right. now rewrite H1, H2.
Qed.

Lemma transitionOf_forward (op : Operation) :
  state_leb (fst (transitionOf op)) (snd (transitionOf op)) = true.
Proof. destruct op; reflexivity. Qed.

Lemma perform_forward (op : Operation) (l : Loan) (now : Time) :
  state_leb (State l) (State (perform op l now)) = true.
Proof.
  destruct (perform_state op l now) as [-> | H].
  - apply state_leb_refl.
  - pose proof (transitionOf_forward op) as F.
    rewrite <- H in F. exact F.
Qed.

(** The states observed along any history of operations never decrease. *)
Lemma forward_only_walk (history : list (Operation * Time)) (l : Loan) :
  state_leb (State l) (State (performAll history l)) = true.
Proof.
  revert l. induction history as [|[op now] rest IH]; intros l; simpl.
  - apply state_leb_refl.
  - apply state_leb_trans with (s2 := State (perform op l now)).
    + apply perform_forward.
    + apply IH.
Qed.

(** C3. Forward-only state progression: whatever the loan and whichever of
    Approve, MarkAsInvested and Disburse is applied, the state after the
    operation is the state before or a later one in the order
    proposed < approved < invested < disbursed; and when the state changes
    it is by the one transition of that operation: proposed to approved for
    Approve, approved to invested for MarkAsInvested, invested to disbursed
    for Disburse. *)
Theorem forward_only_state (op : Operation) (l : Loan) (now : Time) :
  state_leb (State l) (State (perform op l now)) = true
  /\ (State (perform op l now) = State l
      \/ (State l, State (perform op l now)) = transitionOf op).
Proof.
  split.
  - apply perform_forward.
  - apply perform_state.
Qed.

(** C7. Disburse on a loan that is not invested fails with the
    invalid-transition error of [CanBeDisbursed] and hands back the loan as
    it was: state, approval and disbursement evidence and both timestamps
    are those of the loan before the call. *)
Theorem Disburse_not_invested (l : Loan) (signedAgreementDoc employeeID : string)
    (disbursementDate now : Time) :
  State l <> StateInvested ->
  CanBeDisbursed l = Some ErrNotInvested
  /\ Disburse l signedAgreementDoc employeeID disbursementDate now
     = (l, Some ErrNotInvested).
Proof.
  intros H. unfold Disburse, CanBeDisbursed.
  destruct (String.eqb_spec (State l) StateInvested); [ contradiction | ].
  split; reflexivity.
Qed.

(** C10. Frame of MarkAsInvested: on a loan that is not approved it changes
    nothing at all; on an approved loan it sets the state to invested and
    the update time to the clock, and in both cases every other field
    (principal, borrower, rates, agreement link, creation time, approval
    and disbursement evidence) is as before. *)
Theorem MarkAsInvested_frame (l : Loan) (now : Time) :
  ((State l <> StateApproved /\ MarkAsInvested l now = l)
   \/ (State l = StateApproved
       /\ State (MarkAsInvested l now) = StateInvested
       /\ UpdatedAt (MarkAsInvested l now) = now))
  /\ ID (MarkAsInvested l now) = ID l
  /\ BorrowerIDNumber (MarkAsInvested l now) = BorrowerIDNumber l
  /\ PrincipalAmount (MarkAsInvested l now) = PrincipalAmount l
  /\ Rate (MarkAsInvested l now) = Rate l
  /\ ROI (MarkAsInvested l now) = ROI l
  /\ AgreementLetterLink (MarkAsInvested l now) = AgreementLetterLink l
  /\ CreatedAt (MarkAsInvested l now) = CreatedAt l
  /\ ApprovalProofPicture (MarkAsInvested l now) = ApprovalProofPicture l
  /\ ApprovalEmployeeID (MarkAsInvested l now) = ApprovalEmployeeID l
  /\ ApprovalDate (MarkAsInvested l now) = ApprovalDate l
  /\ SignedAgreementDoc (MarkAsInvested l now) = SignedAgreementDoc l
  /\ DisbursementEmployeeID (MarkAsInvested l now) = DisbursementEmployeeID l
  /\ DisbursementDate (MarkAsInvested l now) = DisbursementDate l.
Proof.
  unfold MarkAsInvested.
  destruct (String.eqb_spec (State l) StateApproved) as [E|E]; simpl.
  - repeat split; auto.
  - repeat split; auto.
Qed.

End Lifecycle.

Lemma Disburse_not_invested_witness :
  Disburse (sampleLoan 1000000 StateProposed) "agreement.pdf" "EMP002" 200%Z 300%Z
  = (sampleLoan 1000000 StateProposed, Some ErrNotInvested).
Proof.
  apply (Disburse_not_invested (sampleLoan 1000000 StateProposed)).
  apply String.eqb_neq. reflexivity.
Defined.

(** ** The admission rule of the ledger *)

Section Ledger.
Import Float64.
Local Open Scope float_scope.

Variable l : Loan.

Lemma CanReceiveInvestment_states :
  CanReceiveInvestment l = None
  <-> State l = StateApproved \/ State l = StateInvested.
Proof.
  unfold CanReceiveInvestment.
  destruct (String.eqb_spec (State l) StateApproved),
           (String.eqb_spec (State l) StateInvested); simpl;
    split; intros H; try discriminate; auto; destruct H; contradiction.
Qed.

(** The three outcomes of the check, read off its two comparisons. *)
Lemma ValidateInvestmentAmount_cases (amount currentTotal : float) :
  ((amount <=? 0) = true
   /\ ValidateInvestmentAmount l amount currentTotal = Some ErrNonPositiveAmount)
  \/ ((amount <=? 0) = false
      /\ (PrincipalAmount l <? currentTotal + amount) = true
      /\ ValidateInvestmentAmount l amount currentTotal
         = Some (overfundingPrefix
                   ++ string_of_rune
                        (int32_of_float64 (PrincipalAmount l - currentTotal))))
  \/ ((amount <=? 0) = false
      /\ (PrincipalAmount l <? currentTotal + amount) = false
      /\ ValidateInvestmentAmount l amount currentTotal = None).
Proof.
  unfold ValidateInvestmentAmount, gtb, errors_New.
  destruct (amount <=? 0); [ now left | right ].
  destruct (PrincipalAmount l <? currentTotal + amount); [ now left | now right ].
Qed.

Lemma prefix_append (s t : string) : String.prefix s (s ++ t) = true.
Proof.
  induction s as [|c s IH]; simpl.
  - now destruct t.
  - destruct (ascii_dec c c) as [_|N]; [ exact IH | now elim N ].
Qed.

Lemma isOverfunding_prefix (tail : string) :
  isOverfunding (overfundingPrefix ++ tail) = true.
Proof. apply prefix_append. Qed.

(** A number that is not [<= 0] is [> 0]. *)
Lemma positive_of_not_leb (amount : float) :
  is_nan amount = false -> (amount <=? 0) = false -> (0 <? amount) = true.
Proof.
  intros Hn H. rewrite (leb_ltb_numbers amount 0 Hn eq_refl) in H.
  now destruct (0 <? amount).
Qed.

Lemma not_leb_of_positive (amount : float) :
  (0 <? amount) = true -> (amount <=? 0) = false.
Proof.
  intros H. destruct (ltb_true_numbers _ _ H) as [_ Hn].
  rewrite (leb_ltb_numbers amount 0 Hn eq_refl). now rewrite H.
Qed.

(** C9. The non-positive check comes first: an amount [<= 0] is answered
    with the non-positive-amount error, which is not an overfunding error,
    whatever the current total and the principal; and whenever the check
    answers an overfunding error the amount is strictly positive. *)
Theorem non_positive_takes_precedence (amount currentTotal : float) :
  ((amount <=? 0) = true ->
   ValidateInvestmentAmount l amount currentTotal = Some ErrNonPositiveAmount
   /\ isOverfunding ErrNonPositiveAmount = false)
  /\ (forall err,
        ValidateInvestmentAmount l amount currentTotal = Some err ->
        isOverfunding err = true ->
        (0 <? amount) = true).
Proof.
  destruct (ValidateInvestmentAmount_cases amount currentTotal)
    as [[H V]|[[H [G V]]|[H [G V]]]]; rewrite V; split.
  - intros _. split; reflexivity.
  - intros err E O. injection E as <-. discriminate O.
  - intros H'. congruence.
  - intros err _ _. apply positive_of_not_leb; [ | exact H ].
    apply ltb_true_numbers in G. destruct G as [_ G].
    now apply add_number_operands in G.
  - intros H'. congruence.
  - intros err E. discriminate E.
Qed.

(** The admission rule in float64 arithmetic. For a loan in an investable
    state whose principal is a number, and a current total and amount whose
    float64 sum is a number (not NaN): the check succeeds exactly when the amount is strictly
    positive and currentTotal + amount <= PrincipalAmount; it answers the
    non-positive-amount error when the amount is <= 0, and an overfunding
    error when the amount is positive and the sum exceeds the principal. *)
Theorem admission_rule (amount currentTotal : float) :
  CanReceiveInvestment l = None ->
  is_nan (PrincipalAmount l) = false ->
  is_nan (currentTotal + amount) = false ->
  (ValidateInvestmentAmount l amount currentTotal = None
   <-> (0 <? amount) = true
       /\ (currentTotal + amount <=? PrincipalAmount l) = true)
  /\ ((amount <=? 0) = true ->
      ValidateInvestmentAmount l amount currentTotal = Some ErrNonPositiveAmount)
  /\ ((0 <? amount) = true ->
      (PrincipalAmount l <? currentTotal + amount) = true ->
      exists err,
        ValidateInvestmentAmount l amount currentTotal = Some err
        /\ isOverfunding err = true).
Proof.
  intros _ HP HS.
  pose proof (leb_ltb_numbers _ _ HS HP) as T.
  destruct (add_number_operands _ _ HS) as [_ Ha].
  destruct (ValidateInvestmentAmount_cases amount currentTotal)
    as [[H V]|[[H [G V]]|[H [G V]]]]; rewrite V.
  - (* the amount is <= 0 *)
    split; [ split | split ].
    + discriminate.
    + intros [P _]. apply not_leb_of_positive in P. congruence.
    + reflexivity.
    + intros P. apply not_leb_of_positive in P. congruence.
  - (* the sum is above the principal *)
    split; [ split | split ].
    + discriminate.
    + intros [_ Q]. rewrite T, G in Q. discriminate Q.
    + congruence.
    + intros _ _. eexists. split; [ reflexivity | apply isOverfunding_prefix ].
  - (* admitted *)
    split; [ split | split ].
    + intros _. split; [ now apply positive_of_not_leb | now rewrite T, G ].
    + reflexivity.
    + congruence.
    + congruence.
Qed.

(** For finite operands the sum is always a number, so the rule above
    covers every finite total and amount. *)
Lemma admission_rule_finite (amount currentTotal : float) :
  sf_finite (Prim2SF amount) = true ->
  sf_finite (Prim2SF currentTotal) = true ->
  is_nan (PrincipalAmount l) = false ->
  (ValidateInvestmentAmount l amount currentTotal = None
   <-> (0 <? amount) = true
       /\ (currentTotal + amount <=? PrincipalAmount l) = true).
Proof.
  intros Ha Hc HP.
  assert (HS : is_nan (currentTotal + amount) = false)
    by now apply add_finite_number.
  destruct (ValidateInvestmentAmount_cases amount currentTotal)
    as [[H V]|[[H [G V]]|[H [G V]]]]; rewrite V; split;
    try discriminate; try reflexivity.
  - intros [P _]. apply not_leb_of_positive in P. congruence.
  - intros [_ Q]. rewrite (leb_ltb_numbers _ _ HS HP), G in Q. discriminate Q.
  - intros _. split.
    + apply positive_of_not_leb; [ | exact H ].
      now apply add_number_operands in HS.
    + now rewrite (leb_ltb_numbers _ _ HS HP), G.
Qed.

(** *** The funding ceiling *)

Lemma admitted_not_above (amount currentTotal : float) :
  ValidateInvestmentAmount l amount currentTotal = None ->
  gtb (currentTotal + amount) (PrincipalAmount l) = false.
Proof.
  destruct (ValidateInvestmentAmount_cases amount currentTotal)
    as [[H V]|[[H [G V]]|[H [G V]]]]; rewrite V; try discriminate.
  intros _. exact G.
Qed.

Lemma admitAll_not_above (amounts : list float) :
  forall start total,
    admitAll l start amounts = Some total ->
    gtb start (PrincipalAmount l) = false ->
    gtb total (PrincipalAmount l) = false.
Proof.
  induction amounts as [|amount rest IH]; simpl; intros start total R S.
  - injection R as <-. exact S.
  - destruct (ValidateInvestmentAmount l amount start) eqn:V; [ discriminate | ].
    apply (IH _ _ R). now apply admitted_not_above.
Qed.

(** Whatever is submitted, admitted amounts being added and refused ones
    dropped, a running total that does not start above the principal never
    gets above it. *)
Lemma submitAll_not_above (amounts : list float) :
  forall start,
    gtb start (PrincipalAmount l) = false ->
    gtb (submitAll l start amounts) (PrincipalAmount l) = false.
Proof.
  induction amounts as [|amount rest IH]; simpl; intros start S.
  - exact S.
  - destruct (ValidateInvestmentAmount l amount start) eqn:V.
    + now apply IH.
    + apply IH. now apply admitted_not_above.
Qed.

Lemma admitAll_within (amounts : list float) :
  forall start total,
    forallb (fun amount => negb (is_nan amount)) amounts = true ->
    admitAll l start amounts = Some total ->
    (0 <=? start) = true ->
    (start <=? PrincipalAmount l) = true ->
    (0 <=? total) = true /\ (total <=? PrincipalAmount l) = true.
Proof.
  induction amounts as [|amount rest IH]; simpl; intros start total N R Z S.
  - injection R as <-. now split.
  - apply andb_true_iff in N. destruct N as [Na N].
    apply negb_true_iff in Na.
    destruct (ValidateInvestmentAmount_cases amount start)
      as [[H V]|[[H [G V]]|[H [G V]]]]; rewrite V in R; try discriminate.
    assert (Z' : (0 <=? start + amount) = true).
    { apply add_nonneg; [ exact Z | ].
      apply ltb_leb. now apply positive_of_not_leb. }
    apply (IH _ _ N R Z').
    destruct (leb_true_numbers _ _ Z') as [_ HS].
    destruct (leb_true_numbers _ _ S) as [_ HP].
    now rewrite (leb_ltb_numbers _ _ HS HP), G.
Qed.

(** The ceiling on the float64 total. For a loan with strictly positive
    principal and any sequence of amounts each admitted against the float64
    sum of those admitted before it, that float64 sum is never greater
    than the principal, and when none of the amounts is a NaN it is [<=]
    the principal; likewise a single successful check means that
    currentTotal + amount is not greater than the principal, and is [<=]
    the principal when the sum and the principal are numbers. *)
Theorem funding_ceiling (amounts : list float) (total : float) :
  (0 <? PrincipalAmount l) = true ->
  admitAll l 0 amounts = Some total ->
  gtb total (PrincipalAmount l) = false
  /\ (forallb (fun amount => negb (is_nan amount)) amounts = true ->
      (total <=? PrincipalAmount l) = true)
  /\ (forall amount currentTotal,
        ValidateInvestmentAmount l amount currentTotal = None ->
        gtb (currentTotal + amount) (PrincipalAmount l) = false
        /\ (is_nan (currentTotal + amount) = false ->
            is_nan (PrincipalAmount l) = false ->
            (currentTotal + amount <=? PrincipalAmount l) = true)).
Proof.
  intros P R. split; [ | split ].
  - apply (admitAll_not_above amounts 0 total R).
    unfold gtb. now apply ltb_asym.
  - intros N. apply (admitAll_within amounts 0 total N R eq_refl).
    now apply ltb_leb.
  - intros amount currentTotal V.
    pose proof (admitted_not_above _ _ V) as G. split; [ exact G | ].
    intros HS HP. unfold gtb in G.
    now rewrite (leb_ltb_numbers _ _ HS HP), G.
Qed.

(** When the remaining amount converts to an integer above the last code
    point, the message of the overfunding error ends in U+FFFD whatever the
    remaining amount is. *)
Lemma overfunding_message_above_MaxRune (amount currentTotal : float) (err : error) :
  ValidateInvestmentAmount l amount currentTotal = Some err ->
  isOverfunding err = true ->
  (MaxRune < int32_of_float64 (PrincipalAmount l - currentTotal)%float)%Z ->
  err = overfundingPrefix ++ RuneError.
Proof.
  intros V O M.
  destruct (ValidateInvestmentAmount_cases amount currentTotal)
    as [[H E]|[[H [G E]]|[H [G E]]]]; rewrite E in V.
  - injection V as <-. discriminate O.
  - injection V as <-. f_equal. unfold string_of_rune.
    apply Z.ltb_lt in M. rewrite M, orb_true_r. reflexivity.
  - discriminate V.
Qed.

(** C4. Auto-promotion is exact: the fully-funded test is the float64
    equality of the total and the principal; the promotion step moves the
    loan into the invested state exactly when the loan is approved and the
    total equals the principal; and a total strictly below the principal
    leaves the loan as it is. *)
Theorem auto_promotion_exact (totalInvested : float) (now : Time) :
  IsFullyInvested l totalInvested = (totalInvested =? PrincipalAmount l)
  /\ (movedTo StateInvested l (usecase.promoteIfFullyFunded l totalInvested now)
      <-> State l = StateApproved
          /\ (totalInvested =? PrincipalAmount l) = true)
  /\ ((totalInvested <? PrincipalAmount l) = true ->
      usecase.promoteIfFullyFunded l totalInvested now = l).
Proof.
  unfold usecase.promoteIfFullyFunded, IsFullyInvested, movedTo, MarkAsInvested.
  split; [ reflexivity | split ].
  - destruct (totalInvested =? PrincipalAmount l);
      destruct (String.eqb_spec (State l) StateApproved) as [E|E]; simpl;
      (split; intros [A B];
       [ try contradiction; try (split; [ assumption | reflexivity ])
       | try discriminate B; try contradiction ]).
    split; [ rewrite E; discriminate | reflexivity ].
  - intros H. now rewrite (ltb_not_eqb _ _ H).
Qed.

End Ledger.

(** ** Concrete runs of the ledger *)

Section LedgerRuns.
Import Float64.
Local Open Scope float_scope.

Lemma funding_ceiling_witness :
  gtb 1000000 (PrincipalAmount (sampleLoan 1000000 StateApproved)) = false
  /\ (1000000 <=? PrincipalAmount (sampleLoan 1000000 StateApproved)) = true.
Proof.
  destruct (funding_ceiling (sampleLoan 1000000 StateApproved)
              [600000; 400000] 1000000 eq_refl eq_refl) as [A [B _]].
  split; [ exact A | exact (B eq_refl) ].
Defined.

Lemma admission_rule_witness :
  ValidateInvestmentAmount (sampleLoan 1000000 StateApproved) 400000 600000 = None
  <-> (0 <? 400000) = true
      /\ (600000 + 400000 <=? PrincipalAmount (sampleLoan 1000000 StateApproved))
         = true.
Proof.
  exact (proj1 (admission_rule (sampleLoan 1000000 StateApproved)
                  400000 600000 eq_refl eq_refl eq_refl)).
Defined.

Lemma non_positive_takes_precedence_witness :
  ValidateInvestmentAmount (sampleLoan 1000000 StateApproved) (-5) 2000000
  = Some ErrNonPositiveAmount
  /\ isOverfunding ErrNonPositiveAmount = false.
Proof.
  exact (proj1 (non_positive_takes_precedence
                  (sampleLoan 1000000 StateApproved) (-5) 2000000) eq_refl).
Defined.

Lemma auto_promotion_exact_witness :
  usecase.promoteIfFullyFunded (sampleLoan 1000000 StateApproved) 600000 300%Z
  = sampleLoan 1000000 StateApproved.
Proof.
  exact (proj2 (proj2 (auto_promotion_exact
                         (sampleLoan 1000000 StateApproved) 600000 300%Z))
           eq_refl).
Defined.

(** C6. What the overfunding error holds in place of the remaining amount.
    Investing 50,000,001 in a loan of principal 50,000,000 and investing
    60,000,001 in a loan of principal 60,000,000 are refused with the same
    message, the fixed text followed by U+FFFD: the remaining amounts
    50,000,000 and 60,000,000 are not in it.  For the remaining amount
    1,000,000 the message ends in the code point U+F4240 (the bytes F3 B4 89
    80), not in the digits of the number. *)
Theorem overfunding_error_drops_remaining :
  ValidateInvestmentAmount (sampleLoan 50000000 StateApproved) 50000001 0
  = Some (overfundingPrefix ++ RuneError)
  /\ ValidateInvestmentAmount (sampleLoan 60000000 StateApproved) 60000001 0
     = Some (overfundingPrefix ++ RuneError)
  /\ ValidateInvestmentAmount (sampleLoan 1000000 StateApproved) 1000001 0
     = Some (overfundingPrefix
               ++ String (byte 0xF3) (String (byte 0xB4)
                    (String (byte 0x89) (String (byte 0x80) EmptyString)))).
Proof. repeat split; vm_compute; reflexivity. Qed.

(** Scenario A, at the level of the entity: approve, invest 600,000 (the
    loan stays approved), invest 400,000 (the total reaches the principal
    and the loan becomes invested), disburse. *)
Example scenario_A :
  let proposed := sampleLoan 1000000 StateProposed in
  let approved := fst (Approve proposed "proof.jpg" "EMP001" 150%Z 200%Z) in
  let after1 := usecase.promoteIfFullyFunded approved (0 + 600000) 300%Z in
  let after2 := usecase.promoteIfFullyFunded after1 (600000 + 400000) 400%Z in
  let disbursed := fst (Disburse after2 "agreement.pdf" "EMP002" 450%Z 500%Z) in
  State approved = StateApproved
  /\ ValidateInvestmentAmount approved 600000 0 = None
  /\ State after1 = StateApproved
  /\ ValidateInvestmentAmount after1 400000 600000 = None
  /\ State after2 = StateInvested
  /\ State disbursed = StateDisbursed
  /\ DisbursementEmployeeID disbursed = Some "EMP002".
Proof. repeat split; vm_compute; reflexivity. Qed.

(** Scenario E: a second approval is refused and the evidence of the first
    stays. *)
Example scenario_E :
  let approved :=
    fst (Approve (sampleLoan 1000000 StateProposed) "proof.jpg" "EMP001" 150%Z 200%Z) in
  Approve approved "other.jpg" "EMP009" 250%Z 300%Z = (approved, Some ErrNotProposed)
  /\ ApprovalEmployeeID approved = Some "EMP001".
Proof. repeat split; vm_compute; reflexivity. Qed.

End LedgerRuns.

(** ** Evidence validation at the approval endpoint *)

Section ApprovalEvidence.
Import http.

Variable World : Type.
Variable strconv_ParseInt : string -> option Z.
Variable filepath_Ext : string -> string.
Variable strings_ToLower : string -> string.
Variable time_Parse : string -> string -> option Time.
Variable saveUploadedFile :
  World -> string -> FileHeader -> Z -> string -> string ->
  World * (string + error).
Variable approve : World -> Z -> ApproveLoanParams -> World * (Loan + error).

Lemma short_employee_id_invalid (employeeID dateField : string) :
  (String.length employeeID < 3)%nat ->
  validateEmployeeIDAndDateFormat time_Parse employeeID dateField
  = (zeroTime, Some ErrEmployeeID).
Proof.
  intros H. unfold validateEmployeeIDAndDateFormat.
  apply Nat.ltb_lt in H. now rewrite H.
Qed.

Lemma valid_evidence_long_employee_id (employeeID dateField : string) (t : Time) :
  validateEmployeeIDAndDateFormat time_Parse employeeID dateField = (t, None) ->
  (3 <= String.length employeeID)%nat.
Proof.
  unfold validateEmployeeIDAndDateFormat.
  destruct (Nat.ltb_spec (String.length employeeID) 3); [ discriminate | auto ].
Qed.

(** The staff identifier is measured in bytes ([len]).  An approve request
    whose staff identifier has fewer than 3 bytes is refused before anything
    changes: the evidence check
    answers the employee-ID error, the handler answers 400 Bad Request and
    hands back the world untouched (nothing is saved, the usecase is not
    called), with that very error once the loan id and the uploaded file
    have passed their own checks.  Hence, whatever the request, the handler
    reaches the approval usecase only with a staff identifier of at least
    3 bytes: guarding the usecase against shorter ones changes nothing. *)
Theorem short_employee_id_rejected (w : World) (c : ApproveRequest) :
  ApproveLoan World strconv_ParseInt filepath_Ext strings_ToLower time_Parse
    saveUploadedFile approve w c
  = ApproveLoan World strconv_ParseInt filepath_Ext strings_ToLower time_Parse
      saveUploadedFile (refusingShortEmployeeID approve) w c
  /\ ((String.length (form_employee_id c) < 3)%nat ->
      validateEmployeeIDAndDateFormat time_Parse
        (form_employee_id c) (form_approval_date c)
      = (zeroTime, Some ErrEmployeeID)
      /\ (exists msg,
            ApproveLoan World strconv_ParseInt filepath_Ext strings_ToLower
              time_Parse saveUploadedFile approve w c
            = (w, badRequest msg))
      /\ (forall loanID file header,
            strconv_ParseInt (param_id c) = Some loanID ->
            form_proof_picture c = Some (file, header) ->
            validateUploadedFile filepath_Ext strings_ToLower header
              [".jpg"; ".jpeg"; ".png"] "proof picture" = None ->
            ApproveLoan World strconv_ParseInt filepath_Ext strings_ToLower
              time_Parse saveUploadedFile approve w c
            = (w, badRequest ErrEmployeeID))).
Proof.
  split.
  - unfold ApproveLoan.
    destruct (strconv_ParseInt (param_id c)) as [loanID|]; [ | reflexivity ].
    destruct (form_proof_picture c) as [[file header]|]; [ | reflexivity ].
    destruct (validateUploadedFile _ _ header _ _); [ reflexivity | ].
    destruct (validateEmployeeIDAndDateFormat _ _ _) as [t [err|]] eqn:V;
      [ reflexivity | ].
    apply valid_evidence_long_employee_id in V.
    destruct (saveUploadedFile w file header loanID _ _) as [w1 [path|err]];
      [ | reflexivity ].
    unfold refusingShortEmployeeID. simpl.
    apply Nat.ltb_ge in V. now rewrite V.
  - intros H.
    pose proof (short_employee_id_invalid (form_employee_id c)
                  (form_approval_date c) H) as V.
    split; [ exact V | split ].
    + unfold ApproveLoan.
      destruct (strconv_ParseInt (param_id c)) as [loanID|];
        [ | eexists; reflexivity ].
      destruct (form_proof_picture c) as [[file header]|];
        [ | eexists; reflexivity ].
      destruct (validateUploadedFile _ _ header _ _);
        [ eexists; reflexivity | ].
      rewrite V. eexists; reflexivity.
    + intros loanID file header P F U. unfold ApproveLoan.
      now rewrite P, F, U, V.
Qed.

End ApprovalEvidence.

Lemma short_employee_id_rejected_witness :
  http.validateEmployeeIDAndDateFormat (fun _ _ => Some 42%Z) "ab" "2023-12-25 10:30:00"
  = (zeroTime, Some http.ErrEmployeeID)
  /\ exists msg,
       http.ApproveLoan unit (fun _ => Some 1%Z) (fun name => name) (fun ext => ext)
         (fun _ _ => Some 42%Z) (fun w _ _ _ _ _ => (w, inl "uploads/proof.jpg"))
         (fun w _ _ => (w, inr "loan not found")) tt
         {| http.param_id := "1"; http.form_employee_id := "ab";
            http.form_approval_date := "2023-12-25 10:30:00";
            http.form_proof_picture :=
              Some ("bytes", {| http.Filename := ".png"; http.Size := 10%Z |}) |}
       = (tt, http.badRequest msg).
Proof.
  destruct (proj2 (short_employee_id_rejected unit (fun _ => Some 1%Z)
                     (fun name => name) (fun ext => ext) (fun _ _ => Some 42%Z)
                     (fun w _ _ _ _ _ => (w, inl "uploads/proof.jpg"))
                     (fun w _ _ => (w, inr "loan not found")) tt
                     {| http.param_id := "1"; http.form_employee_id := "ab";
                        http.form_approval_date := "2023-12-25 10:30:00";
                        http.form_proof_picture :=
                          Some ("bytes",
                                {| http.Filename := ".png"; http.Size := 10%Z |}) |})
             ltac:(simpl; lia)) as [V [R _]].
  split; [ exact V | exact R ].
Defined.

(** ** Further properties of the entity *)

Section EntityHistory.

Lemma perform_cases (op : Operation) (l : Loan) (now : Time) :
  perform op l now = l
  \/ ((State l, State (perform op l now)) = transitionOf op
      /\ creationFields (perform op l now) = creationFields l).
Proof.
  destruct op as [p e d| |doc e d]; simpl;
    unfold Approve, CanBeApproved, MarkAsInvested, Disburse, CanBeDisbursed.
  - destruct (String.eqb_spec (State l) StateProposed) as [E|E]; simpl; auto.
    right. now rewrite E.
  - destruct (String.eqb_spec (State l) StateApproved) as [E|E]; simpl; auto.
    right. now rewrite E.
  - destruct (String.eqb_spec (State l) StateInvested) as [E|E]; simpl; auto.
    right. now rewrite E.
Qed.

(** A loan that is not proposed, approved or invested (a disbursed loan, or
    one whose state is no state of the lifecycle) is never changed again:
    any history of Approve, MarkAsInvested and Disburse leaves every field
    as it is. *)
Theorem settled_loan_never_changes (history : list (Operation * Time)) (l : Loan) :
  State l <> StateProposed ->
  State l <> StateApproved ->
  State l <> StateInvested ->
  performAll history l = l.
Proof.
  intros P A I. induction history as [|[op now] rest IH]; simpl.
  - reflexivity.
  - destruct (perform_cases op l now) as [-> | [T _]]; [ exact IH | ].
    destruct op; cbn [transitionOf] in T; injection T as T _; congruence.
Qed.

(** No history of operations touches the fields set at creation: id,
    borrower, principal, rate, ROI, agreement link and creation time. *)
Theorem creation_fields_never_change (history : list (Operation * Time)) (l : Loan) :
  creationFields (performAll history l) = creationFields l.
Proof.
  revert l. induction history as [|[op now] rest IH]; intros l; simpl.
  - reflexivity.
  - rewrite IH. destruct (perform_cases op l now) as [-> | [_ F]]; auto.
Qed.

Lemma perform_keeps_approval (op : Operation) (l : Loan) (now : Time) :
  State l <> StateProposed ->
  State (perform op l now) <> StateProposed
  /\ approvalEvidence (perform op l now) = approvalEvidence l.
Proof.
  intros P.
  destruct op as [p e d| |doc e d]; simpl;
    unfold Approve, CanBeApproved, MarkAsInvested, Disburse, CanBeDisbursed.
  - destruct (String.eqb_spec (State l) StateProposed); [ contradiction | ].
    simpl. auto.
  - destruct (String.eqb_spec (State l) StateApproved); simpl; auto.
    split; [ discriminate | reflexivity ].
  - destruct (String.eqb_spec (State l) StateInvested); simpl; auto.
    split; [ discriminate | reflexivity ].
Qed.

(** Once a loan has left the proposed state its approval evidence (proof
    picture, approving employee, approval date) is final: no history of
    operations changes it, and in particular a second Approve does not
    overwrite the first. *)
Theorem approval_evidence_is_final (history : list (Operation * Time)) (l : Loan) :
  State l <> StateProposed ->
  approvalEvidence (performAll history l) = approvalEvidence l.
Proof.
  revert l. induction history as [|[op now] rest IH]; intros l P; simpl.
  - reflexivity.
  - destruct (perform_keeps_approval op l now P) as [P' E].
    rewrite (IH _ P'). exact E.
Qed.

Lemma perform_keeps_evidence_matching (op : Operation) (l : Loan) (now : Time) :
  evidenceMatchesState l = true ->
  evidenceMatchesState (perform op l now) = true.
Proof.
  intros H.
  destruct op as [p e d| |doc e d]; simpl;
    unfold Approve, CanBeApproved, MarkAsInvested, Disburse, CanBeDisbursed.
  - destruct (String.eqb_spec (State l) StateProposed) as [E|E]; simpl; auto.
    unfold evidenceMatchesState in *. rewrite E in H. simpl in *.
    unfold evidenceAbsent, disbursementEvidence in *. simpl in *.
    apply andb_true_iff in H. now destruct H as [_ ->].
  - destruct (String.eqb_spec (State l) StateApproved) as [E|E]; simpl; auto.
    unfold evidenceMatchesState in *. rewrite E in H. simpl in *. exact H.
  - destruct (String.eqb_spec (State l) StateInvested) as [E|E]; simpl; auto.
    unfold evidenceMatchesState in *. rewrite E in H. simpl in *.
    unfold evidencePresent, approvalEvidence in *. simpl in *.
    apply andb_true_iff in H. destruct H as [-> _]. reflexivity.
Qed.

(** The evidence follows the state along every history: if the loan starts
    with the evidence of its state (none when proposed, the approval when
    approved or invested, approval and disbursement when disbursed), so it
    is after any sequence of operations; a loan that starts proposed and
    without evidence therefore never shows a disbursement without an
    approval, nor evidence ahead of its state. *)
Theorem evidence_follows_state (history : list (Operation * Time)) (l : Loan) :
  evidenceMatchesState l = true ->
  evidenceMatchesState (performAll history l) = true.
Proof.
  revert l. induction history as [|[op now] rest IH]; intros l H; simpl.
  - exact H.
  - apply IH. now apply perform_keeps_evidence_matching.
Qed.

Lemma perform_rank_step (op : Operation) (l : Loan) (now : Time) (m : nat) :
  stateRank (State l) = Some m ->
  exists n, stateRank (State (perform op l now)) = Some n /\ (n <= m + 1)%nat.
Proof.
  intros R. destruct (perform_cases op l now) as [-> | [T _]].
  - exists m. split; [ exact R | lia ].
  - destruct op; cbn [transitionOf perform] in *; injection T as T1 T2;
      rewrite T1 in R; rewrite T2; vm_compute in R; injection R as <-;
      eexists; (split; [ reflexivity | lia ]).
Qed.

Lemma performAll_rank (history : list (Operation * Time)) :
  forall (l : Loan) (m : nat),
    stateRank (State l) = Some m ->
    exists n, stateRank (State (performAll history l)) = Some n
              /\ (n <= m + List.length history)%nat.
Proof.
  induction history as [|[op now] rest IH]; intros l m R; simpl.
  - exists m. split; [ exact R | lia ].
  - destruct (perform_rank_step op l now m R) as [k [Rk Lk]].
    destruct (IH _ _ Rk) as [n [Rn Ln]].
    exists n. split; [ exact Rn | lia ].
Qed.

(** No state is skipped: each operation advances the loan by at most one
    state, so a history that takes a proposed loan to disbursed holds at
    least three operations. *)
Theorem no_shortcut_to_disbursed (history : list (Operation * Time)) (l : Loan) :
  State l = StateProposed ->
  State (performAll history l) = StateDisbursed ->
  (3 <= List.length history)%nat.
Proof.
  intros P D.
  assert (R : stateRank (State l) = Some 0%nat) by now rewrite P.
  destruct (performAll_rank history l 0 R) as [n [Rn Ln]].
  rewrite D in Rn. vm_compute in Rn. injection Rn as <-. lia.
Qed.

(** The state check of an investment: it passes exactly for an approved or
    an invested loan (a fully funded loan still passes it), and otherwise
    answers the one error of the check. *)
Theorem investable_states (l : Loan) :
  (CanReceiveInvestment l = None
   <-> State l = StateApproved \/ State l = StateInvested)
  /\ (CanReceiveInvestment l = None
      \/ CanReceiveInvestment l = Some ErrNotInvestable).
Proof.
  unfold CanReceiveInvestment.
  destruct (String.eqb_spec (State l) StateApproved),
           (String.eqb_spec (State l) StateInvested); simpl;
    (split; [ split; intros H; try discriminate; auto; destruct H; contradiction
            | auto ]).
Qed.

End EntityHistory.

Lemma settled_loan_never_changes_witness :
  performAll [(OpApprove "proof.jpg" "EMP001" 150%Z, 200%Z);
              (OpMarkAsInvested, 300%Z);
              (OpDisburse "agreement.pdf" "EMP002" 350%Z, 400%Z)]
    (sampleLoan 1000000 StateDisbursed)
  = sampleLoan 1000000 StateDisbursed.
Proof.
  apply settled_loan_never_changes; apply String.eqb_neq; reflexivity.
Defined.

Lemma approval_evidence_is_final_witness :
  approvalEvidence
    (performAll [(OpApprove "other.jpg" "EMP009" 250%Z, 300%Z)]
       (fst (Approve (sampleLoan 1000000 StateProposed)
               "proof.jpg" "EMP001" 150%Z 200%Z)))
  = (Some "proof.jpg", Some "EMP001", Some 150%Z).
Proof.
  apply (approval_evidence_is_final
           [(OpApprove "other.jpg" "EMP009" 250%Z, 300%Z)]
           (fst (Approve (sampleLoan 1000000 StateProposed)
                   "proof.jpg" "EMP001" 150%Z 200%Z))).
  apply String.eqb_neq. reflexivity.
Defined.

Lemma evidence_follows_state_witness :
  evidenceMatchesState
    (performAll [(OpApprove "proof.jpg" "EMP001" 150%Z, 200%Z);
                 (OpDisburse "agreement.pdf" "EMP002" 350%Z, 400%Z);
                 (OpMarkAsInvested, 300%Z)]
       (sampleLoan 1000000 StateProposed))
  = true.
Proof.
  apply evidence_follows_state. reflexivity.
Defined.

Lemma no_shortcut_to_disbursed_witness :
  (3 <= List.length
          [(OpApprove "proof.jpg" "EMP001" 150%Z, 200%Z);
           (OpMarkAsInvested, 300%Z);
           (OpDisburse "agreement.pdf" "EMP002" 350%Z, 400%Z)])%nat.
Proof.
  apply (no_shortcut_to_disbursed _ (sampleLoan 1000000 StateProposed));
    reflexivity.
Defined.

(** ** Further properties of the amounts *)

Section Amounts.
Import Float64.
Local Open Scope float_scope.

Lemma SFcompare_Eq_finite (s1 s2 : bool) (m1 m2 : positive) (e1 e2 : Z) :
  SFcompare (S754_finite s1 m1 e1) (S754_finite s2 m2 e2) = Some Eq ->
  s1 = s2 /\ m1 = m2 /\ e1 = e2.
Proof.
  simpl. change (Pos.compare_cont Eq m1 m2) with (Pos.compare m1 m2).
  destruct s1, s2; try discriminate;
    destruct (Z.compare_spec e1 e2); try discriminate;
    destruct (Pos.compare_spec m1 m2); try discriminate; auto.
Qed.

(** The difference of a finite number and a number equal to it is a zero. *)
Lemma SFsub_equal (prec emax : Z) (x y : spec_float) :
  sf_finite y = true ->
  SFcompare x y = Some Eq ->
  exists s, SFsub prec emax y x = S754_zero s.
Proof.
  intros F C.
  destruct y as [sy|sy| |sy my ey]; try discriminate F.
  - destruct x as [sx|sx| |sx mx ex]; simpl in C;
      try discriminate C; try (destruct sx; discriminate C).
    destruct sx, sy; simpl; eauto.
  - destruct x as [sx|sx| |sx mx ex];
      try (simpl in C; discriminate C);
      try (simpl in C; destruct sx; discriminate C);
      try (simpl in C; destruct sy; discriminate C).
    apply SFcompare_Eq_finite in C. destruct C as [-> [-> ->]].
    simpl. rewrite Z.sub_diag. simpl. eauto.
Qed.

Lemma eqb_not_ltb (x y : float) : (x =? y) = true -> (y <? x) = false.
Proof.
  rewrite FloatAxioms.eqb_spec, ltb_spec. unfold SFeqb, SFltb.
  rewrite (SFcompare_swap (Prim2SF x) (Prim2SF y)).
  now destruct (SFcompare (Prim2SF x) (Prim2SF y)) as [[| |]|].
Qed.

(** The remaining amount is never negative, and it is zero as soon as the
    loan is fully invested: for every total, [GetRemainingAmount] is not
    below 0; and when the principal is finite and the total equals it
    ([IsFullyInvested]), [GetRemainingAmount] equals 0. *)
Theorem remaining_amount_floor (l : Loan) (totalInvestment : float) :
  (GetRemainingAmount l totalInvestment <? 0) = false
  /\ (sf_finite (Prim2SF (PrincipalAmount l)) = true ->
      IsFullyInvested l totalInvestment = true ->
      (GetRemainingAmount l totalInvestment =? 0) = true).
Proof.
  unfold GetRemainingAmount, IsFullyInvested. split.
  - destruct (PrincipalAmount l - totalInvestment <? 0) eqn:E;
      [ reflexivity | exact E ].
  - intros F H. rewrite FloatAxioms.eqb_spec in H. unfold SFeqb in H.
    destruct (SFcompare (Prim2SF totalInvestment) (Prim2SF (PrincipalAmount l)))
      as [[| |]|] eqn:C; try discriminate H.
    destruct (SFsub_equal prec emax _ _ F C) as [s Z].
    assert (R : Prim2SF (PrincipalAmount l - totalInvestment) = S754_zero s).
    { rewrite sub_spec. exact Z. }
    assert (L : (PrincipalAmount l - totalInvestment <? 0) = false).
    { rewrite ltb_spec, R. reflexivity. }
    rewrite L, FloatAxioms.eqb_spec, R. reflexivity.
Qed.

(** An investment that fills the loan exactly is admitted and makes it
    fully invested: when the amount is not [<= 0] and the current total plus
    the amount equals the principal, the amount check passes and
    [IsFullyInvested] holds of the new total. *)
Theorem exact_fill_admitted (l : Loan) (amount currentTotal : float) :
  (amount <=? 0) = false ->
  (currentTotal + amount =? PrincipalAmount l) = true ->
  ValidateInvestmentAmount l amount currentTotal = None
  /\ IsFullyInvested l (currentTotal + amount) = true.
Proof.
  intros A E. unfold ValidateInvestmentAmount, IsFullyInvested, gtb.
  rewrite A, (eqb_not_ltb _ _ E). split; [ reflexivity | exact E ].
Qed.

End Amounts.

Lemma remaining_amount_floor_witness :
  (GetRemainingAmount (sampleLoan 1000000 StateApproved) 1000000%float =? 0)%float
  = true.
Proof.
  exact (proj2 (remaining_amount_floor (sampleLoan 1000000 StateApproved)
                  1000000%float) eq_refl eq_refl).
Defined.

Lemma exact_fill_admitted_witness :
  ValidateInvestmentAmount (sampleLoan 1000000 StateApproved)
    400000%float 600000%float = None
  /\ IsFullyInvested (sampleLoan 1000000 StateApproved)
       (600000 + 400000)%float = true.
Proof.
  exact (exact_fill_admitted (sampleLoan 1000000 StateApproved)
           400000%float 600000%float eq_refl eq_refl).
Defined.

(** ** Further properties of the HTTP handlers *)

Section EndpointProperties.
Import http.

Variable World : Type.
Variable strconv_ParseInt : string -> option Z.
Variable strconv_Atoi : string -> option Z.
Variable filepath_Ext : string -> string.
Variable strings_ToLower : string -> string.
Variable time_Parse : string -> string -> option Time.
Variable saveUploadedFile :
  World -> string -> FileHeader -> Z -> string -> string ->
  World * (string + error).
Variable bindCreateLoan : string -> CreateLoanRequest + error.
Variable bindInvestLoan : string -> InvestLoanRequest + error.
Variable usecase_ApproveLoan :
  World -> Z -> ApproveLoanParams -> World * (Loan + error).
Variable usecase_CreateLoan :
  World -> CreateLoanParams -> World * (Loan + error).
Variable usecase_InvestInLoan :
  World -> Z -> InvestLoanParams -> World * (Investment + error).
Variable usecase_DisburseLoan :
  World -> Z -> DisburseLoanParams -> World * (Loan + error).
Variable usecase_GetLoan : World -> Z -> World * (LoanSummary + error).
Variable usecase_ListLoans :
  World -> repository.LoanFilter -> World * (list Loan + error).

(** An upload is accepted exactly when it is at most 5 MiB and its
    lower-cased extension is one of the allowed ones; an upload above 5 MiB
    is refused with the size error whatever its extension. *)
Theorem validateUploadedFile_accepts (header : FileHeader)
    (allowedExts : list string) (fileType : string) :
  (validateUploadedFile filepath_Ext strings_ToLower header allowedExts fileType
   = None
   <-> (Size header <= maxUploadSize)%Z
       /\ In (strings_ToLower (filepath_Ext (Filename header))) allowedExts)
  /\ ((maxUploadSize < Size header)%Z ->
      validateUploadedFile filepath_Ext strings_ToLower header allowedExts fileType
      = Some (fileType ++ " file size must not exceed 5MB")).
Proof.
  unfold validateUploadedFile.
  destruct (Z.ltb_spec maxUploadSize (Size header)) as [L|L].
  - split; [ split | reflexivity ].
    + discriminate.
    + intros [H _]. lia.
  - split; [ | lia ].
    destruct (existsb _ allowedExts) eqn:E.
    + split; [ intros _ | reflexivity ]. split; [ exact L | ].
      apply existsb_exists in E. destruct E as [x [I X]].
      apply String.eqb_eq in X. now subst x.
    + split; [ discriminate | ]. intros [_ I].
      assert (T : existsb (String.eqb (strings_ToLower
                   (filepath_Ext (Filename header)))) allowedExts = true).
      { apply existsb_exists. eexists. split; [ exact I | apply String.eqb_refl ]. }
      congruence.
Qed.

(** The approval handler validates before it acts: unless the loan id
    parses, a proof picture is uploaded and passes the file check, the staff
    identifier has at least 3 bytes and the date parses, the handler answers
    400 Bad Request and hands back the world untouched (no file saved, the
    usecase not called). *)
Theorem ApproveLoan_validates_first (w w' : World) (c : ApproveRequest)
    (r : Response) :
  ApproveLoan World strconv_ParseInt filepath_Ext strings_ToLower time_Parse
    saveUploadedFile usecase_ApproveLoan w c = (w', r) ->
  (w' = w /\ status r = StatusBadRequest)
  \/ (exists loanID file header date,
        strconv_ParseInt (param_id c) = Some loanID
        /\ form_proof_picture c = Some (file, header)
        /\ validateUploadedFile filepath_Ext strings_ToLower header
             [".jpg"; ".jpeg"; ".png"] "proof picture" = None
        /\ (3 <= String.length (form_employee_id c))%nat
        /\ time_Parse "2006-01-02 15:04:05" (form_approval_date c) = Some date).
Proof.
  unfold ApproveLoan. intros H.
  destruct (strconv_ParseInt (param_id c)) as [loanID|];
    [ | injection H as <- <-; now left ].
  destruct (form_proof_picture c) as [[file header]|];
    [ | injection H as <- <-; now left ].
  destruct (validateUploadedFile _ _ header _ _) eqn:U;
    [ injection H as <- <-; now left | ].
  unfold validateEmployeeIDAndDateFormat in H.
  destruct (Nat.ltb_spec (String.length (form_employee_id c)) 3) as [L|L];
    [ injection H as <- <-; now left | ].
  destruct (time_Parse _ (form_approval_date c)) as [date|] eqn:T;
    [ | injection H as <- <-; now left ].
  right. exists loanID, file, header, date. auto.
Qed.

(** The disbursement handler validates before it acts, as the approval
    handler does: unless the loan id parses, a signed agreement is uploaded
    and passes the file check (pdf, jpg, jpeg or png), the staff identifier
    has at least 3 bytes and the date parses, it answers 400 Bad Request and
    hands back the world untouched. *)
Theorem DisburseLoan_validates_first (w w' : World) (c : DisburseRequest)
    (r : Reply) :
  DisburseLoan World strconv_ParseInt filepath_Ext strings_ToLower time_Parse
    saveUploadedFile usecase_DisburseLoan w c = (w', r) ->
  (w' = w /\ code r = StatusBadRequest)
  \/ (exists loanID file header date,
        strconv_ParseInt (disburse_param_id c) = Some loanID
        /\ disburse_signed_agreement_doc c = Some (file, header)
        /\ validateUploadedFile filepath_Ext strings_ToLower header
             [".pdf"; ".jpg"; ".jpeg"; ".png"] "signed agreement" = None
        /\ (3 <= String.length (disburse_employee_id c))%nat
        /\ time_Parse "2006-01-02 15:04:05" (disburse_date c) = Some date).
Proof.
  unfold DisburseLoan. intros H.
  destruct (strconv_ParseInt (disburse_param_id c)) as [loanID|];
    [ | injection H as <- <-; now left ].
  destruct (disburse_signed_agreement_doc c) as [[file header]|];
    [ | injection H as <- <-; now left ].
  destruct (validateUploadedFile _ _ header _ _) eqn:U;
    [ injection H as <- <-; now left | ].
  unfold validateEmployeeIDAndDateFormat in H.
  destruct (Nat.ltb_spec (String.length (disburse_employee_id c)) 3) as [L|L];
    [ injection H as <- <-; now left | ].
  destruct (time_Parse _ (disburse_date c)) as [date|] eqn:T;
    [ | injection H as <- <-; now left ].
  right. exists loanID, file, header, date. auto.
Qed.

(** The creation handler, outcome by outcome.  A body that is not bound is
    answered 400 with the error of the binding, and a bound request whose
    agreement link does not start with "http" is answered 400 with the link
    error, in both cases without calling the usecase (the world is handed
    back as it was).  Every other request reaches the usecase, whatever
    follows "http" in the link, with the five fields of the request; the
    world is then the usecase's, its loan is answered 201 Created and its
    error 400 with the message as it is. *)
Theorem CreateLoan_checks_link (w : World) (body : string) :
  (forall err,
     bindCreateLoan body = inr err ->
     CreateLoan World bindCreateLoan usecase_CreateLoan w body
     = (w, reply StatusBadRequest err))
  /\ (forall req,
        bindCreateLoan body = inl req ->
        String.prefix "http" (reqAgreementLetterLink req) = false ->
        CreateLoan World bindCreateLoan usecase_CreateLoan w body
        = (w, reply StatusBadRequest "agreement letter link must be a valid URL"))
  /\ (forall req,
        bindCreateLoan body = inl req ->
        String.prefix "http" (reqAgreementLetterLink req) = true ->
        CreateLoan World bindCreateLoan usecase_CreateLoan w body
        = (fst (usecase_CreateLoan w
                  {| CreateBorrowerIDNumber := reqBorrowerIDNumber req;
                     CreatePrincipalAmount := reqPrincipalAmount req;
                     CreateRate := reqRate req;
                     CreateROI := reqROI req;
                     CreateAgreementLetterLink := reqAgreementLetterLink req |}),
           match snd (usecase_CreateLoan w
                        {| CreateBorrowerIDNumber := reqBorrowerIDNumber req;
                           CreatePrincipalAmount := reqPrincipalAmount req;
                           CreateRate := reqRate req;
                           CreateROI := reqROI req;
                           CreateAgreementLetterLink := reqAgreementLetterLink req |})
           with
           | inl loan =>
               {| code := StatusCreated; payload := PLoan (toLoanResponse loan) |}
           | inr err => reply StatusBadRequest err
           end)).
Proof.
  unfold CreateLoan. split; [ | split ].
  - intros err ->. reflexivity.
  - intros req -> ->. reflexivity.
  - intros req -> ->. simpl.
    destruct (usecase_CreateLoan w _) as [w1 [loan|err]]; reflexivity.
Qed.

(** The investment handler, outcome by outcome.  An id that does not parse
    is answered 400 "Invalid loan ID" and a body that is not bound 400 with
    the error of the binding, in both cases without calling the usecase (the
    world is handed back as it was).  Every other request reaches the
    usecase with the parsed id and the email and amount of the body; the
    world is then the usecase's, its investment is answered 201 Created, its
    error "loan not found" 404 and any other error 400, the message as it
    is. *)
Theorem InvestInLoan_outcomes (w : World) (loanIDStr body : string) :
  (strconv_ParseInt loanIDStr = None ->
   InvestInLoan World strconv_ParseInt bindInvestLoan usecase_InvestInLoan
     w loanIDStr body
   = (w, reply StatusBadRequest "Invalid loan ID"))
  /\ (forall loanID err,
        strconv_ParseInt loanIDStr = Some loanID ->
        bindInvestLoan body = inr err ->
        InvestInLoan World strconv_ParseInt bindInvestLoan usecase_InvestInLoan
          w loanIDStr body
        = (w, reply StatusBadRequest err))
  /\ (forall loanID req,
        strconv_ParseInt loanIDStr = Some loanID ->
        bindInvestLoan body = inl req ->
        InvestInLoan World strconv_ParseInt bindInvestLoan usecase_InvestInLoan
          w loanIDStr body
        = (fst (usecase_InvestInLoan w loanID
                  {| InvestParamEmail := reqInvestorEmail req;
                     InvestParamAmount := reqAmount req |}),
           match snd (usecase_InvestInLoan w loanID
                        {| InvestParamEmail := reqInvestorEmail req;
                           InvestParamAmount := reqAmount req |})
           with
           | inl investment =>
               {| code := StatusCreated;
                  payload := PInvestment (toInvestmentResponse investment) |}
           | inr err =>
               reply (if err =? "loan not found"
                      then StatusNotFound else StatusBadRequest) err
           end)).
Proof.
  unfold InvestInLoan. split; [ | split ].
  - intros ->. reflexivity.
  - intros loanID err -> ->. reflexivity.
  - intros loanID req -> ->.
    destruct (usecase_InvestInLoan w loanID _) as [w1 [investment|err]]; simpl;
      [ reflexivity | now destruct (err =? "loan not found") ].
Qed.

(** Reading never answers 400 for what the usecase reports: [GetLoan] turns
    the error "loan not found" into 404 and every other error into 500, and
    [ListLoans] turns every error into 500; a listing that succeeds is
    answered with 200, the loans in the order of the usecase and a count
    equal to their number.  Only an id that does not parse makes [GetLoan]
    answer 400. *)
Theorem read_endpoints_outcomes (w : World) (loanIDStr : string) (q : ListQuery) :
  (strconv_ParseInt loanIDStr = None ->
   GetLoan World strconv_ParseInt usecase_GetLoan w loanIDStr
   = (w, reply StatusBadRequest "Invalid loan ID"))
  /\ (forall loanID,
        strconv_ParseInt loanIDStr = Some loanID ->
        GetLoan World strconv_ParseInt usecase_GetLoan w loanIDStr
        = (fst (usecase_GetLoan w loanID),
           match snd (usecase_GetLoan w loanID) with
           | inl summary =>
               {| code := StatusOK;
                  payload := PSummary (toLoanSummaryResponse summary) |}
           | inr err =>
               reply (if err =? "loan not found"
                      then StatusNotFound else StatusInternalServerError) err
           end))
  /\ ListLoans World strconv_Atoi usecase_ListLoans w q
     = (fst (usecase_ListLoans w (listFilter strconv_Atoi q)),
        match snd (usecase_ListLoans w (listFilter strconv_Atoi q)) with
        | inl loans =>
            {| code := StatusOK;
               payload := PLoans (map toLoanResponse loans) (List.length loans) |}
        | inr err => reply StatusInternalServerError err
        end).
Proof.
  unfold GetLoan, ListLoans. split; [ | split ].
  - intros ->. reflexivity.
  - intros loanID ->.
    destruct (usecase_GetLoan w loanID) as [w1 [summary|err]]; simpl;
      [ reflexivity | now destruct (err =? "loan not found") ].
  - destruct (usecase_ListLoans w _) as [w1 [loans|err]]; simpl;
      [ now rewrite length_map | reflexivity ].
Qed.

(** The filter of a listing never carries an empty state or borrower, a
    limit that is not positive or a negative offset: a query parameter that
    is empty, does not parse or is out of range is dropped, not refused. *)
Theorem listFilter_well_formed (q : ListQuery) :
  repository.FilterState (listFilter strconv_Atoi q) <> Some ""
  /\ repository.FilterBorrowerID (listFilter strconv_Atoi q) <> Some ""
  /\ (forall n, repository.FilterLimit (listFilter strconv_Atoi q) = Some n ->
                (0 < n)%Z)
  /\ (forall n, repository.FilterOffset (listFilter strconv_Atoi q) = Some n ->
                (0 <= n)%Z).
Proof.
  unfold listFilter. simpl. repeat split.
  - destruct (String.eqb_spec (query_state q) ""); simpl; congruence.
  - destruct (String.eqb_spec (query_borrower_id q) ""); simpl; congruence.
  - intros n. destruct (query_limit q =? ""); simpl; [ discriminate | ].
    destruct (strconv_Atoi (query_limit q)) as [limit|]; [ | discriminate ].
    destruct (Z.ltb_spec 0 limit) as [L|L]; [ | discriminate ].
    intros E. injection E as <-. exact L.
  - intros n. destruct (query_offset q =? ""); simpl; [ discriminate | ].
    destruct (strconv_Atoi (query_offset q)) as [offset|]; [ | discriminate ].
    destruct (Z.leb_spec 0 offset) as [L|L]; [ | discriminate ].
    intros E. injection E as <-. exact L.
Qed.

End EndpointProperties.

(** ** The statement of a listing *)

Section ListStatement.
Import repository.

(** The statement [List] sends has one placeholder per argument, the
    arguments are the values the filter sets, in the order state, borrower,
    limit, offset, and the text is fixed by which fields of the filter are
    set: the values travel as arguments and never become part of the
    text. *)
Theorem List_query_binds_values (f g : LoanFilter) :
  occurrences "?"%char (fst (List_query f)) = List.length (snd (List_query f))
  /\ snd (List_query f) = boundValues f
  /\ (sameFields f g -> fst (List_query f) = fst (List_query g)).
Proof.
  destruct f as [[s|] [b|] [n|] [m|]];
    (split; [ vm_compute; reflexivity | split; [ reflexivity | ] ]);
    destruct g as [[s'|] [b'|] [n'|] [m'|]]; unfold sameFields; simpl;
    intros [A [B [C D]]]; try discriminate; reflexivity.
Qed.

(** A filter with an offset and no limit yields a statement that ends in
    OFFSET without a LIMIT before it, whatever else the filter sets. *)
Theorem List_query_offset_without_limit (f : LoanFilter) (n : Z) :
  FilterLimit f = None ->
  FilterOffset f = Some n ->
  exists head,
    fst (List_query f) = head ++ " ORDER BY created_at DESC OFFSET ?".
Proof.
  destruct f as [[s|] [b|] lim off]; simpl; intros -> ->; unfold List_query; simpl.
  - exists (selectLoans ++ " WHERE state = ? AND borrower_id_number = ?").
    vm_compute. reflexivity.
  - exists (selectLoans ++ " WHERE state = ?"). vm_compute. reflexivity.
  - exists (selectLoans ++ " WHERE borrower_id_number = ?"). vm_compute. reflexivity.
  - exists selectLoans. vm_compute. reflexivity.
Qed.

End ListStatement.

Lemma List_query_binds_values_witness :
  fst (repository.List_query
         {| repository.FilterState := Some "approved";
            repository.FilterBorrowerID := None;
            repository.FilterLimit := Some 10%Z;
            repository.FilterOffset := None |})
  = fst (repository.List_query
           {| repository.FilterState := Some "x' OR 1=1 --";
              repository.FilterBorrowerID := None;
              repository.FilterLimit := Some (-1)%Z;
              repository.FilterOffset := None |}).
Proof.
  apply List_query_binds_values. repeat split.
Defined.

Lemma List_query_offset_without_limit_witness :
  exists head,
    fst (repository.List_query
           {| repository.FilterState := None;
              repository.FilterBorrowerID := None;
              repository.FilterLimit := None;
              repository.FilterOffset := Some 20%Z |})
    = head ++ " ORDER BY created_at DESC OFFSET ?".
Proof.
  exact (List_query_offset_without_limit
           {| repository.FilterState := None;
              repository.FilterBorrowerID := None;
              repository.FilterLimit := None;
              repository.FilterOffset := Some 20%Z |} 20%Z eq_refl eq_refl).
Defined.

(** ** The notification loop *)

Section Notification.
Import email.

Variable outcome : list Message -> Message -> SendResult.
Variable htmlContent : SendLoanNotificationRequest -> string.
Variable plainTextContent : SendLoanNotificationRequest -> string.

Lemma sendToAll_recorded (from : Email) (subject plain html : string)
    (emails : list string) :
  forall (before sent : list Message) (res : option error),
    sendToAll (list Message) (recordingClient outcome) from subject plain html
      before emails = (sent, res) ->
    exists new,
      sent = (before ++ new)%list
      /\ map (fun m => Address (To m)) new = firstn (List.length new) emails
      /\ (res = None -> List.length new = List.length emails)
      /\ (forall err, res = Some err ->
            exists earlier m,
              new = (earlier ++ [m])%list
              /\ accepted (outcome (before ++ earlier)%list m) = false
              /\ err = sendFailure m (outcome (before ++ earlier)%list m))
      /\ (forall earlier m later,
            new = (earlier ++ m :: later)%list ->
            later <> [] \/ res = None ->
            accepted (outcome (before ++ earlier)%list m) = true).
Proof.
  induction emails as [|email rest IH]; intros before sent res H; simpl in H.
  - injection H as <- <-. exists []. rewrite app_nil_r.
    repeat split; auto; try discriminate.
    intros earlier m later E. now destruct earlier.
  - unfold recordingClient in H at 1.
    set (message := {| From := from; Subject := subject;
                       To := {| Name := ""; Address := email |};
                       PlainTextContent := plain; HTMLContent := html |}) in *.
    destruct (outcome before message) as [err|status body] eqn:O.
    + injection H as <- <-. exists [message]. repeat split; auto.
      * discriminate.
      * intros e E. injection E as <-.
        exists [], message. rewrite app_nil_r, O. auto.
      * intros earlier m later E [L|L]; [ | discriminate L ].
        destruct earlier as [|a [|b earlier]]; simpl in E;
          injection E; intros; try discriminate; subst; contradiction.
    + destruct (Z.leb_spec 400 status) as [L|L].
      * injection H as <- <-. exists [message]. repeat split; auto.
        -- discriminate.
        -- intros e E. injection E as <-.
           exists [], message. rewrite app_nil_r, O. simpl.
           repeat split; auto. apply Z.ltb_ge. exact L.
        -- intros earlier m later E [N|N]; [ | discriminate N ].
           destruct earlier as [|a [|b earlier]]; simpl in E;
             injection E; intros; try discriminate; subst; contradiction.
      * destruct (IH _ _ _ H) as [new [S [M [N [F G]]]]].
        exists (message :: new). rewrite <- app_assoc in S. simpl in S.
        repeat split; auto.
        -- simpl. now rewrite M.
        -- intros R. simpl. now rewrite (N R).
        -- intros e R. destruct (F e R) as [earlier [m [E [A B]]]].
           exists (message :: earlier), m. rewrite E.
           rewrite <- app_assoc in A, B. simpl in A, B. auto.
        -- intros earlier m later E C.
           destruct earlier as [|a earlier]; simpl in E; injection E as <- E.
           ++ rewrite app_nil_r, O. simpl. apply Z.ltb_lt. exact L.
           ++ specialize (G earlier m later E C).
              rewrite <- app_assoc in G. exact G.
Qed.

(** The notification stops at the first investor it cannot reach, and only
    there.  With a client that records every message handed to it: the
    messages sent go to the investors of the request in their order, one
    each, from the first on; every message but the last was accepted by the
    client, and so was the last when the service answers no error, in which
    case every investor was sent one; when it answers an error, the last
    message sent is the one the client did not accept (an error, or a status
    of 400 or more), no investor after that one was contacted, and the error
    names the address of that investor.  So a message the client does not
    accept always ends the loop with an error. *)
Theorem notification_stops_at_first_failure (config : SendGridConfig)
    (request : SendLoanNotificationRequest)
    (sent : list Message) (res : option error) :
  SendLoanFullyInvestedNotification (list Message) (recordingClient outcome)
    htmlContent plainTextContent config [] request = (sent, res) ->
  map (fun m => Address (To m)) sent
  = firstn (List.length sent) (InvestorEmails request)
  /\ (res = None -> List.length sent = List.length (InvestorEmails request))
  /\ (forall err, res = Some err ->
        exists earlier m,
          sent = (earlier ++ [m])%list
          /\ accepted (outcome earlier m) = false
          /\ err = sendFailure m (outcome earlier m))
  /\ (forall earlier m later,
        sent = (earlier ++ m :: later)%list ->
        later <> [] \/ res = None ->
        accepted (outcome earlier m) = true).
Proof.
  unfold SendLoanFullyInvestedNotification. intros H.
  destruct (sendToAll_recorded _ _ _ _ _ _ _ _ H) as [new [S [M [N [F G]]]]].
  simpl in S. subst new. auto.
Qed.

End Notification.

(** ** Runs of the handlers and of the notification *)

Lemma validateUploadedFile_accepts_witness :
  http.validateUploadedFile standInExt standInToLower
    {| http.Filename := "proof.PNG"; http.Size := 6000000%Z |}
    [".jpg"; ".jpeg"; ".png"] "proof picture"
  = Some "proof picture file size must not exceed 5MB".
Proof.
  apply (proj2 (validateUploadedFile_accepts standInExt standInToLower
                  {| http.Filename := "proof.PNG"; http.Size := 6000000%Z |}
                  [".jpg"; ".jpeg"; ".png"] "proof picture")).
  vm_compute. reflexivity.
Defined.

Lemma ApproveLoan_validates_first_witness :
  (tt = tt /\ http.status (http.badRequest http.ErrDateFormat) = http.StatusBadRequest)
  \/ (exists loanID file header date,
        standInParseInt "1" = Some loanID
        /\ Some ("bytes", {| http.Filename := "proof.PNG"; http.Size := 10%Z |})
           = Some (file, header)
        /\ http.validateUploadedFile standInExt standInToLower header
             [".jpg"; ".jpeg"; ".png"] "proof picture" = None
        /\ (3 <= String.length "EMP001")%nat
        /\ standInTimeParse "2006-01-02 15:04:05" "25/12/2023" = Some date).
Proof.
  exact (ApproveLoan_validates_first unit standInParseInt standInExt
           standInToLower standInTimeParse standInSave standInNotFound tt tt
           {| http.param_id := "1"; http.form_employee_id := "EMP001";
              http.form_approval_date := "25/12/2023";
              http.form_proof_picture :=
                Some ("bytes",
                      {| http.Filename := "proof.PNG"; http.Size := 10%Z |}) |}
           (http.badRequest http.ErrDateFormat) eq_refl).
Defined.

Lemma DisburseLoan_validates_first_witness :
  (tt = tt
   /\ http.code (http.reply http.StatusBadRequest http.ErrEmployeeID)
      = http.StatusBadRequest)
  \/ (exists loanID file header date,
        standInParseInt "1" = Some loanID
        /\ Some ("bytes", {| http.Filename := "proof.PNG"; http.Size := 10%Z |})
           = Some (file, header)
        /\ http.validateUploadedFile standInExt standInToLower header
             [".pdf"; ".jpg"; ".jpeg"; ".png"] "signed agreement" = None
        /\ (3 <= String.length "ab")%nat
        /\ standInTimeParse "2006-01-02 15:04:05" "2023-12-25 10:30:00" = Some date).
Proof.
  exact (DisburseLoan_validates_first unit standInParseInt standInExt
           standInToLower standInTimeParse standInSave standInNotFound tt tt
           {| http.disburse_param_id := "1"; http.disburse_employee_id := "ab";
              http.disburse_date := "2023-12-25 10:30:00";
              http.disburse_signed_agreement_doc :=
                Some ("bytes",
                      {| http.Filename := "proof.PNG"; http.Size := 10%Z |}) |}
           (http.reply http.StatusBadRequest http.ErrEmployeeID) eq_refl).
Defined.

Lemma CreateLoan_checks_link_witness :
  http.CreateLoan unit standInBindCreate standInCreate tt
    "ftp://example.com/agreement.pdf"
  = (tt, http.reply http.StatusBadRequest
           "agreement letter link must be a valid URL")
  /\ http.CreateLoan unit standInBindCreate standInCreate tt "httpx"
     = (tt, http.reply http.StatusBadRequest "creation refused").
Proof.
  split.
  - exact (proj1 (proj2 (CreateLoan_checks_link unit standInBindCreate
                           standInCreate tt "ftp://example.com/agreement.pdf"))
             _ eq_refl eq_refl).
  - exact (proj2 (proj2 (CreateLoan_checks_link unit standInBindCreate
                           standInCreate tt "httpx"))
             _ eq_refl eq_refl).
Defined.

Lemma InvestInLoan_outcomes_witness :
  http.InvestInLoan unit standInParseInt standInBindInvest standInNotFound
    tt "abc" "investor@example.com"
  = (tt, http.reply http.StatusBadRequest "Invalid loan ID")
  /\ http.InvestInLoan unit standInParseInt standInBindInvest standInNotFound
       tt "1" "investor@example.com"
     = (tt, http.reply http.StatusNotFound "loan not found").
Proof.
  split.
  - exact (proj1 (InvestInLoan_outcomes unit standInParseInt standInBindInvest
                    standInNotFound tt "abc" "investor@example.com") eq_refl).
  - exact (proj2 (proj2 (InvestInLoan_outcomes unit standInParseInt
                           standInBindInvest standInNotFound tt "1"
                           "investor@example.com"))
             1%Z _ eq_refl eq_refl).
Defined.

Lemma read_endpoints_outcomes_witness :
  http.GetLoan unit standInParseInt standInGetLoan tt "abc"
  = (tt, http.reply http.StatusBadRequest "Invalid loan ID")
  /\ http.GetLoan unit standInParseInt standInGetLoan tt "1"
     = (tt, http.reply http.StatusInternalServerError "database is locked").
Proof.
  split.
  - exact (proj1 (read_endpoints_outcomes unit standInParseInt standInAtoi
                    standInGetLoan standInListLoans tt "abc"
                    {| http.query_state := ""; http.query_borrower_id := "";
                       http.query_limit := ""; http.query_offset := "" |})
             eq_refl).
  - exact (proj1 (proj2 (read_endpoints_outcomes unit standInParseInt standInAtoi
                           standInGetLoan standInListLoans tt "1"
                           {| http.query_state := ""; http.query_borrower_id := "";
                              http.query_limit := ""; http.query_offset := "" |}))
             1%Z eq_refl).
Defined.

Lemma listFilter_well_formed_witness :
  (0 < 10)%Z
  /\ http.listFilter standInAtoi
       {| http.query_state := "approved"; http.query_borrower_id := "";
          http.query_limit := "10"; http.query_offset := "-3" |}
     = {| repository.FilterState := Some "approved";
          repository.FilterBorrowerID := None;
          repository.FilterLimit := Some 10%Z;
          repository.FilterOffset := None |}.
Proof.
  split; [ | reflexivity ].
  exact (proj1 (proj2 (proj2 (listFilter_well_formed standInAtoi
                                {| http.query_state := "approved";
                                   http.query_borrower_id := "";
                                   http.query_limit := "10";
                                   http.query_offset := "-3" |})))
           10%Z eq_refl).
Defined.

Lemma notification_stops_at_first_failure_witness :
  map (fun m => email.Address (email.To m))
    (fst (email.SendLoanFullyInvestedNotification (list email.Message)
            (recordingClient standInOutcome) (fun _ => "html") (fun _ => "text")
            {| email.APIKey := "key"; email.FromEmail := "noreply@example.com";
               email.FromName := "Amartha Loan Engine" |} []
            {| email.NotifyLoanID := 1%Z;
               email.InvestorEmails := ["a@example.com"; "b@example.com"; "c@example.com"];
               email.NotifyBorrowerIDNumber := "ID123456789";
               email.NotifyPrincipalAmount := 1000000%float;
               email.NotifyAgreementLetterLink := "https://example.com/agreement.pdf" |}))
  = ["a@example.com"; "b@example.com"].
Proof.
  exact (proj1 (notification_stops_at_first_failure standInOutcome
                  (fun _ => "html") (fun _ => "text")
                  {| email.APIKey := "key"; email.FromEmail := "noreply@example.com";
                     email.FromName := "Amartha Loan Engine" |}
                  {| email.NotifyLoanID := 1%Z;
                     email.InvestorEmails :=
                       ["a@example.com"; "b@example.com"; "c@example.com"];
                     email.NotifyBorrowerIDNumber := "ID123456789";
                     email.NotifyPrincipalAmount := 1000000%float;
                     email.NotifyAgreementLetterLink :=
                       "https://example.com/agreement.pdf" |}
                  _ _ eq_refl)).
Defined.

(** ** What a successful transition records, and what a response shows *)

Section Recording.
Import http.

(** Approve and Disburse succeed exactly from their source state (proposed,
    resp. invested), and a success records the evidence as given: the state
    becomes the target state, the three evidence fields of the transition
    hold the document, the employee and the date passed in, the update time
    is the clock, and the other evidence and the creation fields stay. *)
Theorem evidence_recorded_as_given (l : Loan) (document employeeID : string)
    (date now : Time) :
  (snd (Approve l document employeeID date now) = None
   <-> State l = StateProposed)
  /\ (snd (Disburse l document employeeID date now) = None
      <-> State l = StateInvested)
  /\ (State l = StateProposed ->
      State (fst (Approve l document employeeID date now)) = StateApproved
      /\ approvalEvidence (fst (Approve l document employeeID date now))
         = (Some document, Some employeeID, Some date)
      /\ UpdatedAt (fst (Approve l document employeeID date now)) = now
      /\ disbursementEvidence (fst (Approve l document employeeID date now))
         = disbursementEvidence l
      /\ creationFields (fst (Approve l document employeeID date now))
         = creationFields l)
  /\ (State l = StateInvested ->
      State (fst (Disburse l document employeeID date now)) = StateDisbursed
      /\ disbursementEvidence (fst (Disburse l document employeeID date now))
         = (Some document, Some employeeID, Some date)
      /\ UpdatedAt (fst (Disburse l document employeeID date now)) = now
      /\ approvalEvidence (fst (Disburse l document employeeID date now))
         = approvalEvidence l
      /\ creationFields (fst (Disburse l document employeeID date now))
         = creationFields l).
Proof.
  unfold Approve, CanBeApproved, Disburse, CanBeDisbursed.
  destruct (String.eqb_spec (State l) StateProposed) as [P|P];
    destruct (String.eqb_spec (State l) StateInvested) as [I|I]; simpl;
    repeat split; intros; try congruence; try discriminate; auto.
Qed.

Lemma fileURL_None (directory : string) (name : option string) :
  fileURL directory name = None <-> name = None \/ name = Some "".
Proof.
  unfold fileURL. destruct name as [n|]; [ | tauto ].
  destruct (String.eqb_spec n "") as [->|N]; simpl.
  - tauto.
  - split; [ discriminate | ]. intros [H|H]; congruence.
Qed.

Lemma fileURL_Some (directory name : string) :
  name <> "" ->
  fileURL directory (Some name) = Some (BaseFileURL ++ directory ++ name).
Proof.
  intros N. unfold fileURL.
  destruct (String.eqb_spec name ""); [ contradiction | reflexivity ].
Qed.

(** A response shows the URL of a file exactly when the loan holds a
    non-empty file name, and the URL is then the base URL, the directory of
    the kind of file and that name; a loan without the file, or with an empty
    name, is answered without URL. *)
Theorem toLoanResponse_urls (loan : Loan) :
  (ApprovalProofPictureURL (toLoanResponse loan) = None
   <-> ApprovalProofPicture loan = None \/ ApprovalProofPicture loan = Some "")
  /\ (SignedAgreementDocURL (toLoanResponse loan) = None
      <-> SignedAgreementDoc loan = None \/ SignedAgreementDoc loan = Some "")
  /\ (forall name, ApprovalProofPicture loan = Some name -> name <> "" ->
        ApprovalProofPictureURL (toLoanResponse loan)
        = Some (BaseFileURL ++ "/proof_pictures/" ++ name))
  /\ (forall name, SignedAgreementDoc loan = Some name -> name <> "" ->
        SignedAgreementDocURL (toLoanResponse loan)
        = Some (BaseFileURL ++ "/signed_agreements/" ++ name)).
Proof.
  unfold toLoanResponse. simpl. split; [ | split; [ | split ] ].
  - apply fileURL_None.
  - apply fileURL_None.
  - intros name -> N. now apply fileURL_Some.
  - intros name -> N. now apply fileURL_Some.
Qed.

End Recording.

Lemma evidence_recorded_as_given_witness :
  approvalEvidence
    (fst (Approve (sampleLoan 1000000 StateProposed) "proof.jpg" "EMP001" 150%Z 200%Z))
  = (Some "proof.jpg", Some "EMP001", Some 150%Z).
Proof.
  apply (evidence_recorded_as_given (sampleLoan 1000000 StateProposed)
           "proof.jpg" "EMP001" 150%Z 200%Z).
  reflexivity.
Defined.

Lemma toLoanResponse_urls_witness :
  http.ApprovalProofPictureURL
    (http.toLoanResponse
       (fst (Approve (sampleLoan 1000000 StateProposed)
               "loan_1_proof.jpg" "EMP001" 150%Z 200%Z)))
  = Some "http://localhost:8080/files/proof_pictures/loan_1_proof.jpg".
Proof.
  apply (proj1 (proj2 (proj2 (toLoanResponse_urls
           (fst (Approve (sampleLoan 1000000 StateProposed)
                   "loan_1_proof.jpg" "EMP001" 150%Z 200%Z)))))
           "loan_1_proof.jpg" eq_refl).
  apply String.eqb_neq. reflexivity.
Defined.

Lemma submitAll_not_above_witness :
  gtb (submitAll (sampleLoan 1000000 StateApproved) 0%float
         [600000%float; 600000%float; (-5)%float; 400000%float; 1%float])
    (PrincipalAmount (sampleLoan 1000000 StateApproved))
  = false.
Proof.
  apply (submitAll_not_above (sampleLoan 1000000 StateApproved)). reflexivity.
Defined.

Lemma admission_rule_finite_witness :
  ValidateInvestmentAmount (sampleLoan 1000000 StateApproved)
    600000%float 600000%float = None
  <-> PrimFloat.ltb 0 600000 = true
      /\ PrimFloat.leb (600000 + 600000)
           (PrincipalAmount (sampleLoan 1000000 StateApproved)) = true.
Proof.
  exact (admission_rule_finite (sampleLoan 1000000 StateApproved)
           600000%float 600000%float eq_refl eq_refl eq_refl).
Defined.

(** ** Runs that break the ceiling and the evidence rule *)

Section Defects.
Local Open Scope float_scope.

(** C1. The funding ceiling does not hold of the code in exact terms.  On a
    loan of principal 10^16 the investment of 10^16 is admitted and makes
    the loan fully invested; the invested loan still passes the state check,
    and the further investment of 1 is admitted too, because the float64 sum
    10^16 + 1 rounds to 10^16, which is not above the principal.  Both
    amounts are admitted, each against the sum of those before it, and they
    add up to 10^16 + 1, above the principal. *)
Theorem funding_ceiling_exceeded_by_rounding :
  (0 <? PrincipalAmount (sampleLoan 10000000000000000 StateApproved)) = true
  /\ ValidateInvestmentAmount (sampleLoan 10000000000000000 StateApproved)
       10000000000000000 0 = None
  /\ IsFullyInvested (sampleLoan 10000000000000000 StateApproved)
       (0 + 10000000000000000) = true
  /\ MarkAsInvested (sampleLoan 10000000000000000 StateApproved) 300%Z
     = {| ID := 1%Z; BorrowerIDNumber := "ID123456789";
          PrincipalAmount := 10000000000000000;
          Rate := 12.5; ROI := 15; State := StateInvested;
          AgreementLetterLink := "https://example.com/agreement.pdf";
          CreatedAt := 100%Z; UpdatedAt := 300%Z;
          ApprovalProofPicture := None; ApprovalEmployeeID := None;
          ApprovalDate := None; SignedAgreementDoc := None;
          DisbursementEmployeeID := None; DisbursementDate := None |}
  /\ CanReceiveInvestment
       (MarkAsInvested (sampleLoan 10000000000000000 StateApproved) 300%Z) = None
  /\ ValidateInvestmentAmount
       (MarkAsInvested (sampleLoan 10000000000000000 StateApproved) 300%Z)
       1 (0 + 10000000000000000) = None
  /\ admitAll (sampleLoan 10000000000000000 StateApproved) 0
       [10000000000000000; 1] = Some 10000000000000000
  /\ exactSum [10000000000000000; 1] = Some (10000000000000001 * oneUnit)%Z
  /\ exactUnits (PrincipalAmount (sampleLoan 10000000000000000 StateApproved))
     = Some (10000000000000000 * oneUnit)%Z
  /\ exactlyAbove [10000000000000000; 1]
       (PrincipalAmount (sampleLoan 10000000000000000 StateApproved)) = true.
Proof. repeat split; vm_compute; reflexivity. Qed.

(** C5. The admission check succeeds on an amount that takes the total
    above the principal.  The loan of principal 10^16 is in an investable
    state and holds 10^16 already; the amount 1 is strictly positive and
    currentTotal + amount is 10^16 + 1, above the principal, yet
    ValidateInvestmentAmount returns nil: the comparison is made on the
    float64 sum, which is 10^16. *)
Theorem admission_above_principal_by_rounding :
  CanReceiveInvestment (sampleLoan 10000000000000000 StateInvested) = None
  /\ (0 <? 1) = true
  /\ ValidateInvestmentAmount (sampleLoan 10000000000000000 StateInvested)
       1 10000000000000000 = None
  /\ 10000000000000000 + 1 = 10000000000000000
  /\ exactUnits 1 = Some oneUnit
  /\ exactUnits 10000000000000000 = Some (10000000000000000 * oneUnit)%Z
  /\ exactlyAbove [10000000000000000; 1]
       (PrincipalAmount (sampleLoan 10000000000000000 StateInvested)) = true.
Proof. repeat split; vm_compute; reflexivity. Qed.

End Defects.

(** C8. A staff identifier of two characters is approved.  The identifier
    e-acute, a has 2 characters and 3 bytes; the evidence check, which
    measures bytes, lets it pass, the handler calls the usecase with it and
    answers 200, and with a usecase that applies Approve the loan ends
    approved with this identifier as its approving employee. *)
Theorem two_character_staff_id_approved :
  runeCount twoCharacterID = 2%nat
  /\ String.length twoCharacterID = 3%nat
  /\ http.validateEmployeeIDAndDateFormat standInTimeParse
       twoCharacterID "2023-12-25 10:30:00" = (42%Z, None)
  /\ http.status
       (snd (http.ApproveLoan Loan standInParseInt standInExt standInToLower
               standInTimeParse standInSaveLoan standInApprove
               (sampleLoan 1000000 StateProposed)
               {| http.param_id := "1";
                  http.form_employee_id := twoCharacterID;
                  http.form_approval_date := "2023-12-25 10:30:00";
                  http.form_proof_picture :=
                    Some ("bytes",
                          {| http.Filename := "proof.PNG"; http.Size := 10%Z |}) |}))
     = http.StatusOK
  /\ State
       (fst (http.ApproveLoan Loan standInParseInt standInExt standInToLower
               standInTimeParse standInSaveLoan standInApprove
               (sampleLoan 1000000 StateProposed)
               {| http.param_id := "1";
                  http.form_employee_id := twoCharacterID;
                  http.form_approval_date := "2023-12-25 10:30:00";
                  http.form_proof_picture :=
                    Some ("bytes",
                          {| http.Filename := "proof.PNG"; http.Size := 10%Z |}) |}))
     = StateApproved
  /\ ApprovalEmployeeID
       (fst (http.ApproveLoan Loan standInParseInt standInExt standInToLower
               standInTimeParse standInSaveLoan standInApprove
               (sampleLoan 1000000 StateProposed)
               {| http.param_id := "1";
                  http.form_employee_id := twoCharacterID;
                  http.form_approval_date := "2023-12-25 10:30:00";
                  http.form_proof_picture :=
                    Some ("bytes",
                          {| http.Filename := "proof.PNG"; http.Size := 10%Z |}) |}))
     = Some twoCharacterID.
Proof. repeat split; vm_compute; reflexivity. Qed.
